(** * GeoLite service of pocket-id: range classifier, lookup gateway, update pipeline

    A shallow embedding of [backend/internal/service/geolite_service.go]
    (package [service]) and the properties its specification states.

    Layout of the development:
    - [Net]      : the parts of Go's [net] package the service relies on
                   ([net.IP], [IP.To4], [net.CIDRMask], [IPNet.Contains]);
    - [Path]     : [strings.Split] and [filepath.Base];
    - the data model, the [World] a run lives in and the [Runtime] of library
      capabilities the service is linked against (address parsing, the
      MaxMind decoder, [fmt.Sprintf], ...);
    - the service itself, in a state-and-error monad over a file system and
      an event trace;
    - [Spec]     : the vocabulary of the specification;
    - [Sample]   : a concrete runtime and concrete runs;
    - the theorems: addresses and networks, the classifier and the lookup
      gateway, construction, the update pipeline. *)

From Stdlib Require Import ZArith NArith Lia List String Ascii.
From Stdlib Require Import Strings.Byte.
From stdpp Require Import gmap strings list.

#[global] Instance byte_eq_dec : EqDecision byte := Byte.byte_eq_dec.

(* ===================================================================== *)
(** ** Go's [net] package: addresses, masks and networks                  *)
(* ===================================================================== *)

Module Net.

(** [net.IP] and [net.IPMask] are byte slices; a [nil] slice is the empty
    list. *)
Definition IP := list byte.
Definition IPMask := list byte.

(** [net.IPNet] *)
Record IPNet := mkIPNet { net_IP : IP; net_Mask : IPMask }.

Definition IPv4len : nat := 4.
Definition IPv6len : nat := 16.

(** [byte(n)]: conversion of an integer to a byte, with wrap-around. *)
Definition byte_of_N (n : N) : byte :=
  match Byte.of_N (n mod 256) with
  | Some b => b
  | None => x00
  end.

Definition v4InV6Prefix : list byte :=
  [x00; x00; x00; x00; x00; x00; x00; x00; x00; x00; xff; xff].

(** [net.IPv4(a, b, c, d)]: the 16-byte form of an IPv4 address. *)
Definition IPv4 (a b c d : byte) : IP := v4InV6Prefix ++ [a; b; c; d].

(** [net.IPv6loopback] = [::1] *)
Definition IPv6loopback : IP :=
  [x00; x00; x00; x00; x00; x00; x00; x00;
   x00; x00; x00; x00; x00; x00; x00; x01].

Definition isZeros (p : list byte) : bool :=
  forallb (fun x => bool_decide (x = x00)) p.

(** [IP.To4]: the 4-byte form of an IPv4 address, [None] for Go's [nil]. *)
Definition To4 (ip : IP) : option IP :=
  if decide (length ip = IPv4len) then Some ip
  else if bool_decide (length ip = IPv6len)
          && isZeros (take 10 ip)
          && bool_decide (ip !! 10%nat = Some xff)
          && bool_decide (ip !! 11%nat = Some xff)
       then Some (drop 12 ip)
       else None.

(** The loop of [net.CIDRMask]: [l] bytes are still to be produced and [n]
    one-bits are left. *)
Fixpoint cidr_mask_bytes (l : nat) (n : N) : list byte :=
  match l with
  | O => []
  | S l' =>
      if (8 <=? n)%N then xff :: cidr_mask_bytes l' (n - 8)%N
      else byte_of_N (255 - N.shiftr 255 n)%N :: cidr_mask_bytes l' 0%N
  end.

(** [net.CIDRMask(ones, bits)]; [nil] when the arguments are out of range. *)
Definition CIDRMask (ones bits : Z) : IPMask :=
  if negb (bits =? 8 * Z.of_nat IPv4len)%Z && negb (bits =? 8 * Z.of_nat IPv6len)%Z
  then []
  else if (ones <? 0)%Z || (bits <? ones)%Z then []
  else cidr_mask_bytes (Z.to_nat (bits / 8)) (Z.to_N ones).

(** [networkNumberAndMask]: the network number and mask of [n] in the same
    length, [(nil, nil)] when [n] is malformed. *)
Definition networkNumberAndMask (n : IPNet) : IP * IPMask :=
  let ip :=
    match To4 (net_IP n) with
    | Some x => Some x
    | None => if decide (length (net_IP n) = IPv6len) then Some (net_IP n) else None
    end in
  match ip with
  | None => ([], [])
  | Some ip =>
      let m := net_Mask n in
      if decide (length m = IPv4len) then
        if decide (length ip = IPv4len) then (ip, m) else ([], [])
      else if decide (length m = IPv6len) then
        if decide (length ip = IPv4len) then (ip, drop 12 m) else (ip, m)
      else ([], [])
  end.

(** The comparison loop of [IPNet.Contains]:
    [nn[i]&m[i] != ip[i]&m[i]] at some index gives [false]. *)
Fixpoint masked_eq (nn m ip : list byte) : bool :=
  match nn, m, ip with
  | [], _, _ => true
  | n :: nn', k :: m', x :: ip' =>
      (N.land (Byte.to_N n) (Byte.to_N k) =? N.land (Byte.to_N x) (Byte.to_N k))%N
      && masked_eq nn' m' ip'
  | _, _, _ => false
  end.

(** [IPNet.Contains] *)
Definition Contains (n : IPNet) (ip : IP) : bool :=
  let '(nn, m) := networkNumberAndMask n in
  let ip := match To4 ip with Some x => x | None => ip end in
  if decide (length ip = length nn) then masked_eq nn m ip else false.

End Net.

(* ===================================================================== *)
(** ** [strings.Split] and [filepath.Base]                                *)
(* ===================================================================== *)

Module Path.

(** [strings.Split(s, sep)] for a one-character separator: the pieces
    between the separators, [[""]] for the empty string. *)
Fixpoint Split (s : string) (sep : ascii) : list string :=
  match s with
  | EmptyString => [EmptyString]
  | String c s' =>
      if decide (c = sep) then EmptyString :: Split s' sep
      else match Split s' sep with
           | h :: t => String c h :: t
           | [] => [String c EmptyString]
           end
  end.

(** [os.IsPathSeparator] on Unix. *)
Definition IsPathSeparator (c : ascii) : bool := bool_decide (c = "/"%char).

Fixpoint drop_seps (l : list ascii) : list ascii :=
  match l with
  | c :: l' => if IsPathSeparator c then drop_seps l' else l
  | [] => []
  end.

Fixpoint take_elem (l : list ascii) : list ascii :=
  match l with
  | c :: l' => if IsPathSeparator c then [] else c :: take_elem l'
  | [] => []
  end.

(** [filepath.Base] on Unix (no volume names): trailing separators are
    stripped, then everything up to the last separator. Both loops of the
    source walk the string from its end, hence the reversals. *)
Definition Base (path : string) : string :=
  if decide (path = EmptyString) then "."%string
  else
    let stripped := drop_seps (rev (list_ascii_of_string path)) in
    match rev (take_elem stripped) with
    | [] => "/"%string
    | elem => string_of_list_ascii elem
    end.

End Path.

(* ===================================================================== *)
(** ** Data model                                                         *)
(* ===================================================================== *)

Import Net Path.

(** [common.EnvConfig]: the fields the service reads. *)
Record EnvConfigSchema := mkEnvConfig {
  MaxMindLicenseKey : string;
  GeoLiteDBUrl      : string;
  GeoLiteDBPath     : string;
  LocalIPv6Ranges   : string
}.

(** Package [common]: the configuration and the default download URL
    template [common.MaxMindGeoLiteCityUrl], a constant declared outside the
    files at hand and therefore kept abstract. *)
Record Common := mkCommon {
  EnvConfig : EnvConfigSchema;
  MaxMindGeoLiteCityUrl : string
}.

(** [GeoLiteService]. The HTTP client and the mutex are external resources:
    the client is the [http_Do] oracle of the [World], the mutex shows in the
    event trace. *)
Record GeoLiteService := mkService {
  disableUpdater  : bool;
  localIPv6Ranges : list IPNet
}.

(** A file: content and modification time (nanoseconds). *)
Record File := mkFile { content : list byte; modTime : Z }.

(** The decoded record of a database lookup. *)
Record GeoRecord := mkGeoRecord {
  City_Names    : gmap string string;
  Country_Names : gmap string string
}.

(** [tar.Header], the fields that are read. *)
Record Header := mkHeader { Typeflag : ascii; Name : string; Size : Z }.

(** [tar.TypeReg] *)
Definition TypeReg : ascii := "0"%char.

(** What [tarReader.Next] and the following [io.Copy] deliver: an error, or
    an entry with the bytes that can be read from it and whether reading
    them ends without error. The end of the list is [io.EOF]. *)
Inductive TarItem :=
| TarError
| TarEntry (hdr : Header) (data : list byte) (stream_ok : bool).

(** A response body: rejected by [gzip.NewReader], or a tar stream. *)
Inductive Body :=
| NotGzip
| GzipTar (items : list TarItem).

Inductive HttpResult :=
| HttpError
| HttpResponse (StatusCode : Z) (body : Body).

Inductive LogLevel := Info | Warn.

(** Observable actions, in the order they happen. *)
Inductive Event :=
| EvLog (lvl : LogLevel) (msg : string)
| EvStat (path : string)
| EvHttpGet (url : string)
| EvCreateTemp (name : string)
| EvWrite (name : string) (ok : bool)
| EvRemove (name : string)
| EvOpenDB (path : string) (ok : bool)
| EvRename (oldpath newpath : string) (ok : bool)
| EvLock | EvUnlock | EvRLock | EvRUnlock.

(** The errors of the service, one constructor per error site; [ErrExtract]
    wraps its cause as [%w] does. *)
Inductive error :=
| ErrInvalidRange (rangeStr : string)   (* invalid IPv6 range '%s': %w *)
| ErrNotIPv6Range (rangeStr : string)   (* range '%s' is not a valid IPv6 range *)
| ErrParseAddr                          (* failed to parse IP address: %w *)
| ErrOpenDB                             (* error of maxminddb.Open *)
| ErrDecode                             (* error of Lookup(addr).Decode *)
| ErrCreateRequest                      (* failed to create request: %w *)
| ErrDownload                           (* failed to download database: %w *)
| ErrHTTPStatus (code : Z)              (* failed to download database, received HTTP %d *)
| ErrExtract (cause : error)            (* failed to extract database: %w *)
| ErrGzipReader                         (* failed to create gzip reader: %w *)
| ErrTarRead                            (* failed to read tar archive: %w *)
| ErrSizeLimit                          (* total decompressed size exceeds maximum allowed limit *)
| ErrCreateTemp                         (* failed to create temporary database file: %w *)
| ErrWriteFile                          (* failed to write database file: %w *)
| ErrOpenDownloaded                     (* failed to open downloaded database file: %w *)
| ErrReplace                            (* failed to replace database file: %w *)
| ErrNotInArchive.                      (* GeoLite2-City.mmdb not found in archive *)

(** The outcomes one run obtains from its environment. *)
Record World := mkWorld {
  now           : Z;                               (* time.Now(), nanoseconds *)
  http_Do       : string -> HttpResult;            (* s.httpClient.Do of a GET *)
  temp_name     : string -> string -> option string; (* name os.CreateTemp settles on *)
  disk_write_ok : bool;                            (* writes of io.Copy succeed *)
  rename_ok     : bool                             (* os.Rename succeeds *)
}.

(** Library capabilities the service is linked against. *)
Class Runtime := {
  Addr : Type;                                     (* netip.Addr *)
  Reader : Type;                                   (* *maxminddb.Reader *)
  ParseIP : string -> option IP;                   (* net.ParseIP *)
  ParseAddr : string -> option Addr;               (* netip.ParseAddr *)
  ParseCIDR : string -> option (IP * IPNet);       (* net.ParseCIDR *)
  TrimSpace : string -> string;                    (* strings.TrimSpace *)
  Sprintf : string -> string -> string;            (* fmt.Sprintf(format, arg) *)
  Dir : string -> string;                          (* filepath.Dir *)
  NewRequest_ok : string -> bool;                  (* http.NewRequestWithContext accepts the URL *)
  mmdb_Open : list byte -> option Reader;          (* maxminddb decoding of a file's bytes *)
  mmdb_Lookup : Reader -> Addr -> option GeoRecord (* db.Lookup(addr).Decode(&record) *)
}.

(** [net.ParseIP] is [netip.ParseAddr] restricted to addresses without a
    zone: whatever the former parses, the latter parses. *)
Class RuntimeLaws (RT : Runtime) := {
  ParseIP_ParseAddr : forall s ip, ParseIP s = Some ip -> is_Some (ParseAddr s);
  ParseIP_empty : ParseIP EmptyString = None;
  TrimSpace_empty : TrimSpace EmptyString = EmptyString
}.

(* ===================================================================== *)
(** ** The service                                                        *)
(* ===================================================================== *)

(** Computations over the file system that may fail and that emit events:
    the result, the file system afterwards, and the events of this
    computation in order. *)
Definition M (A : Type) : Type :=
  gmap string File -> (error + A) * gmap string File * list Event.

#[global] Instance M_ret : MRet M := fun A (a : A) fs => (inr a, fs, []).

#[global] Instance M_bind : MBind M := fun A B (k : A -> M B) (m : M A) fs =>
  match m fs with
  | (inl e, fs1, t1) => (inl e, fs1, t1)
  | (inr a, fs1, t1) =>
      match k a fs1 with
      | (r, fs2, t2) => (r, fs2, t1 ++ t2)
      end
  end.

Definition fail {A} (e : error) : M A := fun fs => (inl e, fs, []).

Definition emit (ev : Event) : M unit := fun fs => (inr tt, fs, [ev]).

(** [defer]: [ev] happens when [m] returns, with or without an error. *)
Definition deferred {A} (m : M A) (ev : Event) : M A := fun fs =>
  match m fs with
  | (r, fs1, t1) => (r, fs1, t1 ++ [ev])
  end.

(** [v, err := m]: the error of [m] as a value. *)
Definition try {A} (m : M A) : M (error + A) := fun fs =>
  match m fs with
  | (r, fs1, t1) => (inr r, fs1, t1)
  end.

(** [fmt.Errorf("...: %w", err)] on the error path of [m]. *)
Definition wrapped {A} (wrap : error -> error) (m : M A) : M A := fun fs =>
  match m fs with
  | (inl e, fs1, t1) => (inl (wrap e), fs1, t1)
  | r => r
  end.

(** [int64] arithmetic wraps around. *)
Definition wrap64 (z : Z) : Z := ((z + 2 ^ 63) mod 2 ^ 64 - 2 ^ 63)%Z.

Definition maxDuration : Z := (2 ^ 63 - 1)%Z.
Definition minDuration : Z := (- 2 ^ 63)%Z.

(** [time.Since(t)] at time [now]: a [Duration], saturated at its bounds. *)
Definition Since (now t : Z) : Z :=
  Z.max minDuration (Z.min maxDuration (now - t)).

(** [time.Hour], in nanoseconds. *)
Definition Hour : Z := 3600 * 1000000000.

(** [const maxTotalSize = 300 * 1024 * 1024] *)
Definition maxTotalSize : Z := 300 * 1024 * 1024.

Definition StatusOK : Z := 200.

Definition names_en (names : gmap string string) : string :=
  default EmptyString (names !! "en"%string).

Section Service.

Context {RT : Runtime}.
Variable common : Common.
Variable w : World.

Local Open Scope string_scope.

(** *** Operating system and decoder calls *)

(** [os.CreateTemp(dir, pattern)]: the file is created exclusively
    ([O_EXCL]), so a name that exists is never taken; the call fails when the
    world offers no usable name. *)
Definition CreateTemp (dir pattern : string) : M string := fun fs =>
  match temp_name w dir pattern with
  | None => (inl ErrCreateTemp, fs, [])
  | Some name =>
      match fs !! name with
      | Some _ => (inl ErrCreateTemp, fs, [])
      | None => (inr name, <[name := mkFile [] (now w)]> fs, [EvCreateTemp name])
      end
  end.

(** [io.Copy(tmpFile, tarReader)]: [data] reaches the file; the copy
    succeeds when the stream and the disk both do. *)
Definition Copy (name : string) (data : list byte) (stream_ok : bool) : M bool := fun fs =>
  let ok := stream_ok && disk_write_ok w in
  (inr ok, <[name := mkFile data (now w)]> fs, [EvWrite name ok]).

(** [os.Remove]. Every caller ignores its error; the file system model has
    no failing removal: the file is gone afterwards. *)
Definition Remove (name : string) : M unit := fun fs =>
  (inr tt, delete name fs, [EvRemove name]).

(** [os.Rename]: replaces [newpath] in one step or leaves the file system as
    it is. *)
Definition Rename (oldpath newpath : string) : M bool := fun fs =>
  match fs !! oldpath with
  | Some f =>
      if rename_ok w
      then (inr true, <[newpath := f]> (delete oldpath fs), [EvRename oldpath newpath true])
      else (inr false, fs, [EvRename oldpath newpath false])
  | None => (inr false, fs, [EvRename oldpath newpath false])
  end.

(** What the decoder makes of the file at [path]: nothing when the file is
    missing or is not a database. *)
Definition decoded (fs : gmap string File) (path : string) : option Reader :=
  match fs !! path with
  | Some f => mmdb_Open (content f)
  | None => None
  end.

(** [maxminddb.Open(path)] *)
Definition Open (path : string) : M Reader := fun fs =>
  match decoded fs path with
  | Some db => (inr db, fs, [EvOpenDB path true])
  | None => (inl ErrOpenDB, fs, [EvOpenDB path false])
  end.

(** [os.Stat(path)] followed by [info.ModTime()] *)
Definition Stat (path : string) : M (option Z) := fun fs =>
  (inr (modTime <$> fs !! path), fs, [EvStat path]).

(** *** Construction *)

(** The loop of [initializeIPv6LocalRanges] over the split setting. *)
Fixpoint parse_ranges (ranges : list string) (localRanges : list IPNet)
  : error + list IPNet :=
  match ranges with
  | [] => inr localRanges
  | rangeStr :: rest =>
      let rangeStr := TrimSpace rangeStr in
      if decide (rangeStr = "") then parse_ranges rest localRanges
      else
        match ParseCIDR rangeStr with
        | None => inl (ErrInvalidRange rangeStr)
        | Some (_, ipNet) =>
            match To4 (net_IP ipNet) with
            | Some _ => inl (ErrNotIPv6Range rangeStr)
            | None => parse_ranges rest (localRanges ++ [ipNet])
            end
        end
  end.

(** [initializeIPv6LocalRanges]: the error, the service afterwards and what
    was logged. *)
Definition initializeIPv6LocalRanges (s : GeoLiteService)
  : option error * GeoLiteService * list Event :=
  let rangesEnv := LocalIPv6Ranges (EnvConfig common) in
  if decide (rangesEnv = "") then (None, s, [])
  else
    match parse_ranges (Split rangesEnv ","%char) [] with
    | inl err => (Some err, s, [])
    | inr localRanges =>
        (None,
         mkService (disableUpdater s) localRanges,
         if (0 <? length localRanges)%nat
         then [EvLog Info "Initialized IPv6 local ranges"] else [])
    end.

(** [NewGeoLiteService]: the service and what was logged. *)
Definition NewGeoLiteService : GeoLiteService * list Event :=
  let service := mkService false [] in
  let '(service, log1) :=
    if bool_decide (MaxMindLicenseKey (EnvConfig common) = "")
       && bool_decide (GeoLiteDBUrl (EnvConfig common) = MaxMindGeoLiteCityUrl common)
    then (mkService true (localIPv6Ranges service),
          [EvLog Warn "MAXMIND_LICENSE_KEY environment variable is empty: the GeoLite2 City database won't be updated"])
    else (service, []) in
  match initializeIPv6LocalRanges service with
  | (Some _, service, log2) =>
      (service, (log1 ++ log2 ++ [EvLog Warn "Failed to initialize IPv6 local ranges"])%list)
  | (None, service, log2) => (service, (log1 ++ log2)%list)
  end.

(** [DisableUpdater] *)
Definition DisableUpdater (s : GeoLiteService) : bool := disableUpdater s.

(** *** The range classifier and the lookup gateway *)

Definition localhostIPNets : list IPNet :=
  [ mkIPNet (IPv4 x7f x00 x00 x00) (CIDRMask 8 32);     (* 127.0.0.0/8 *)
    mkIPNet IPv6loopback (CIDRMask 128 128) ].           (* ::1/128 *)

Definition privateLanIPNets : list IPNet :=
  [ mkIPNet (IPv4 x0a x00 x00 x00) (CIDRMask 8 32);     (* 10.0.0.0/8 *)
    mkIPNet (IPv4 xac x10 x00 x00) (CIDRMask 12 32);    (* 172.16.0.0/12 *)
    mkIPNet (IPv4 xc0 xa8 x00 x00) (CIDRMask 16 32) ].  (* 192.168.0.0/16 *)

Definition tailscaleIPNets : list IPNet :=
  [ mkIPNet (IPv4 x64 x40 x00 x00) (CIDRMask 10 32) ].  (* 100.64.0.0/10 *)

(** [isLocalIPv6] *)
Definition isLocalIPv6 (s : GeoLiteService) (ip : IP) : bool :=
  match To4 ip with
  | Some _ => false
  | None => existsb (fun localRange => Contains localRange ip) (localIPv6Ranges s)
  end.

(** The checks [GetLocationByIP] runs on a parsed address: the label pair of
    the first range that contains it, [None] when the checks fall through. *)
Definition rangeLabel (s : GeoLiteService) (ip : IP) : option (string * string) :=
  if isLocalIPv6 s ip then Some ("Internal Network", "LAN")
  else if existsb (fun ipNet => Contains ipNet ip) tailscaleIPNets
  then Some ("Internal Network", "Tailscale")
  else if existsb (fun ipNet => Contains ipNet ip) privateLanIPNets
  then Some ("Internal Network", "LAN")
  else if existsb (fun ipNet => Contains ipNet ip) localhostIPNets
  then Some ("Internal Network", "localhost")
  else None.

(** The database part of [GetLocationByIP], entered with the read lock
    held. *)
Definition lookupDatabase (addr : Addr) : M (string * string) :=
  db ← Open (GeoLiteDBPath (EnvConfig common));
  match mmdb_Lookup db addr with
  | None => fail ErrDecode
  | Some record => mret (names_en (Country_Names record), names_en (City_Names record))
  end.

(** [GetLocationByIP]: country and city, or the error. *)
Definition GetLocationByIP (s : GeoLiteService) (ipAddress : string)
  : M (string * string) :=
  if decide (ipAddress = "") then mret ("", "")
  else
    match ParseIP ipAddress ≫= rangeLabel s with
    | Some label => mret label
    | None =>
        match ParseAddr ipAddress with
        | None => fail ErrParseAddr
        | Some addr =>
            emit EvRLock;;
            deferred (lookupDatabase addr) EvRUnlock
        end
    end.

(** *** The update pipeline *)

(** [isDatabaseUpToDate] *)
Definition isDatabaseUpToDate : M bool :=
  info ← Stat (GeoLiteDBPath (EnvConfig common));
  match info with
  | None => mret false
  | Some mtime => mret (Since (now w) mtime <? 14 * 24 * Hour)%Z
  end.

(** The body of the matching-entry branch of [extractDatabase], after the
    size check: stage, validate, install. *)
Definition installEntry (data : list byte) (stream_ok : bool) : M unit :=
  let baseDir := Dir (GeoLiteDBPath (EnvConfig common)) in
  tempName ← CreateTemp baseDir "geolite.*.mmdb.tmp";
  copied ← Copy tempName data stream_ok;
  if negb copied then Remove tempName;; fail ErrWriteFile
  else
    opened ← try (Open tempName);
    match opened with
    | inl _ => Remove tempName;; fail ErrOpenDownloaded
    | inr db =>
        emit EvLock;;
        renamed ← Rename tempName (GeoLiteDBPath (EnvConfig common));
        emit EvUnlock;;
        if negb renamed then Remove tempName;; fail ErrReplace
        else mret tt
    end.

(** The loop of [extractDatabase] over the entries of the archive. *)
Fixpoint extractEntries (items : list TarItem) (totalSize : Z) : M unit :=
  match items with
  | [] => fail ErrNotInArchive
  | TarError :: _ => fail ErrTarRead
  | TarEntry header data stream_ok :: rest =>
      if bool_decide (Typeflag header = TypeReg)
         && bool_decide (Base (Name header) = "GeoLite2-City.mmdb")
      then
        let totalSize := wrap64 (totalSize + Size header) in
        if (maxTotalSize <? totalSize)%Z then fail ErrSizeLimit
        else installEntry data stream_ok
      else extractEntries rest totalSize
  end.

(** [extractDatabase] *)
Definition extractDatabase (s : GeoLiteService) (reader : Body) : M unit :=
  match reader with
  | NotGzip => fail ErrGzipReader
  | GzipTar items => extractEntries items 0
  end.

(** [UpdateDatabase] *)
Definition UpdateDatabase (s : GeoLiteService) : M unit :=
  upToDate ← isDatabaseUpToDate;
  if (upToDate : bool) then emit (EvLog Info "GeoLite2 City database is up-to-date")
  else
    emit (EvLog Info "Updating GeoLite2 City database");;
    let downloadUrl :=
      Sprintf (GeoLiteDBUrl (EnvConfig common)) (MaxMindLicenseKey (EnvConfig common)) in
    if negb (NewRequest_ok downloadUrl) then fail ErrCreateRequest
    else
      emit (EvHttpGet downloadUrl);;
      match http_Do w downloadUrl with
      | HttpError => fail ErrDownload
      | HttpResponse StatusCode body =>
          if negb (StatusCode =? StatusOK)%Z then fail (ErrHTTPStatus StatusCode)
          else
            wrapped ErrExtract (extractDatabase s body);;
            emit (EvLog Info "GeoLite2 City database successfully updated.")
      end.

End Service.

(* ===================================================================== *)
(** ** The vocabulary of the specification                                *)
(* ===================================================================== *)

(** The range classifier as the specification words it: membership in a
    built-in block is a comparison of the leading bits of the address read
    as a number; the five steps are tried in the stated order. *)
Module Spec.

Local Open Scope string_scope.

(** The IPv4 address [a.b.c.d] as a 32-bit number. *)
Definition addr4 (a b c d : N) : N := (a * 2 ^ 24 + b * 2 ^ 16 + c * 2 ^ 8 + d)%N.

(** [ip] is an IPv4 address (also when written as an IPv4-mapped IPv6
    address) whose first [len] bits are those of [base]. *)
Definition in_block4 (base len : N) (ip : IP) : bool :=
  match To4 ip with
  | Some [a; b; c; d] =>
      (addr4 (Byte.to_N a) (Byte.to_N b) (Byte.to_N c) (Byte.to_N d) / 2 ^ (32 - len)
       =? base / 2 ^ (32 - len))%N
  | _ => false
  end.

(** An IPv6 address is one without a 4-byte form. *)
Definition is_ipv6 (ip : IP) : bool := bool_decide (To4 ip = None).

Definition in_local_range (ranges : list IPNet) (ip : IP) : bool :=
  existsb (fun r => Contains r ip) ranges.

Definition in_cgnat (ip : IP) : bool := in_block4 (addr4 100 64 0 0) 10 ip.

Definition in_private (ip : IP) : bool :=
  in_block4 (addr4 10 0 0 0) 8 ip
  || in_block4 (addr4 172 16 0 0) 12 ip
  || in_block4 (addr4 192 168 0 0) 16 ip.

Definition in_loopback (ip : IP) : bool :=
  in_block4 (addr4 127 0 0 0) 8 ip || bool_decide (ip = IPv6loopback).

Definition LAN : string * string := ("Internal Network", "LAN").
Definition Tailscale : string * string := ("Internal Network", "Tailscale").
Definition Localhost : string * string := ("Internal Network", "localhost").

(** Steps 1 to 5 of the range classifier. *)
Definition classify (ranges : list IPNet) (ip : IP) : option (string * string) :=
  if is_ipv6 ip && in_local_range ranges ip then Some LAN
  else if in_cgnat ip then Some Tailscale
  else if in_private ip then Some LAN
  else if in_loopback ip then Some Localhost
  else None.

(** The file at the database path is strictly younger than 14 days. *)
Definition fresh (now : Z) (f : File) : Prop :=
  (now - modTime f < 14 * 24 * 3600 * 1000000000)%Z.

End Spec.

#[global] Instance fresh_dec now f : Decision (Spec.fresh now f).
Proof. unfold Spec.fresh. apply _. Defined.

Section SpecConfiguration.

Context {RT : Runtime}.

(** The entries of the local-ranges setting: the trimmed, non-empty pieces
    between the commas. *)
Definition range_entry (setting entry : string) : Prop :=
  entry ∈ (TrimSpace <$> Split setting ","%char) /\ entry <> EmptyString.

(** An entry that fails CIDR parsing, or that parses as an IPv4 range. *)
Definition bad_range (entry : string) : Prop :=
  ParseCIDR entry = None
  \/ exists ip ipNet, ParseCIDR entry = Some (ip, ipNet) /\ is_Some (To4 (net_IP ipNet)).

(** A log entry at warning level. *)
Definition is_warning (ev : Event) : Prop := exists msg, ev = EvLog Warn msg.

End SpecConfiguration.

Section SpecPipeline.

Context {RT : Runtime}.
Variable common : Common.
Variable w : World.

(** The archive entry the pipeline is after: a regular file whose base name
    is the database file name. *)
Definition matching (hdr : Header) : Prop :=
  Typeflag hdr = TypeReg /\ Base (Name hdr) = "GeoLite2-City.mmdb"%string.

(** An item the scan passes over: an entry that is read without error and
    does not match. *)
Definition passed_over (item : TarItem) : Prop :=
  match item with
  | TarEntry hdr _ _ => ~ matching hdr
  | TarError => False
  end.

(** The installed database is missing, or 14 days old or older. *)
Definition stale (fs : gmap string File) : Prop :=
  match fs !! GeoLiteDBPath (EnvConfig common) with
  | Some f => ~ Spec.fresh (now w) f
  | None => True
  end.

(** [ev] changes what is stored at path [p]. *)
Definition mutates (ev : Event) (p : string) : Prop :=
  match ev with
  | EvCreateTemp name | EvWrite name _ | EvRemove name => p = name
  | EvRename oldpath newpath true => p = oldpath \/ p = newpath
  | _ => False
  end.

(** A monitor over a trace: every rename it meets, successful or not, goes
    onto [path] and moves a file that the decoder opened successfully earlier
    in the trace; [validated] are the files opened so far. *)
Fixpoint renames_validated (path : string) (validated : list string)
    (tr : list Event) : Prop :=
  match tr with
  | [] => True
  | EvOpenDB t true :: tr' => renames_validated path (t :: validated) tr'
  | EvRename t p _ :: tr' =>
      (p = path /\ t ∈ validated) /\ renames_validated path validated tr'
  | _ :: tr' => renames_validated path validated tr'
  end.

(** The URL of the download: the template with the license key. *)
Definition download_url : string :=
  Sprintf (GeoLiteDBUrl (EnvConfig common)) (MaxMindLicenseKey (EnvConfig common)).

(** The events of a run that got past the freshness check, up to the
    creation of the request and up to the response. *)
Definition before_request : list Event :=
  [EvStat (GeoLiteDBPath (EnvConfig common));
   EvLog Info "Updating GeoLite2 City database"].

Definition before_response : list Event :=
  (before_request ++ [EvHttpGet download_url])%list.

(** The runs of the staging, validation and installation of an entry with
    bytes [data], from the file system [fs]: result, file system afterwards
    and events. [t] is the staging file. *)
Inductive install_run (data : list byte) (fs : gmap string File)
  : (error + unit) * gmap string File * list Event -> Prop :=
| run_no_staging :
    install_run data fs (inl ErrCreateTemp, fs, [])
| run_write_failed t :
    fs !! t = None ->
    install_run data fs
      (inl ErrWriteFile, fs, [EvCreateTemp t; EvWrite t false; EvRemove t])
| run_invalid t :
    fs !! t = None -> mmdb_Open data = None ->
    install_run data fs
      (inl ErrOpenDownloaded, fs,
       [EvCreateTemp t; EvWrite t true; EvOpenDB t false; EvRemove t])
| run_rename_failed t :
    fs !! t = None -> is_Some (mmdb_Open data) ->
    install_run data fs
      (inl ErrReplace, fs,
       [EvCreateTemp t; EvWrite t true; EvOpenDB t true;
        EvLock; EvRename t (GeoLiteDBPath (EnvConfig common)) false; EvUnlock;
        EvRemove t])
| run_installed t :
    fs !! t = None -> is_Some (mmdb_Open data) ->
    install_run data fs
      (inr tt,
       <[GeoLiteDBPath (EnvConfig common) := mkFile data (now w)]> fs,
       [EvCreateTemp t; EvWrite t true; EvOpenDB t true;
        EvLock; EvRename t (GeoLiteDBPath (EnvConfig common)) true; EvUnlock]).

(** The runs of [extractDatabase]: it fails before anything is staged, or it
    stages one entry. *)
Inductive extract_run (fs : gmap string File)
  : (error + unit) * gmap string File * list Event -> Prop :=
| run_rejected e :
    e ∈ [ErrGzipReader; ErrTarRead; ErrSizeLimit; ErrNotInArchive] ->
    extract_run fs (inl e, fs, [])
| run_entry data r :
    install_run data fs r -> extract_run fs r.

(** The runs of [UpdateDatabase] for a service [s]. *)
Inductive update_run (fs : gmap string File)
  : (error + unit) * gmap string File * list Event -> Prop :=
| run_up_to_date f :
    fs !! GeoLiteDBPath (EnvConfig common) = Some f -> Spec.fresh (now w) f ->
    update_run fs
      (inr tt, fs,
       [EvStat (GeoLiteDBPath (EnvConfig common));
        EvLog Info "GeoLite2 City database is up-to-date"])
| run_bad_request :
    stale fs -> NewRequest_ok download_url = false ->
    update_run fs (inl ErrCreateRequest, fs, before_request)
| run_download_failed :
    stale fs -> NewRequest_ok download_url = true ->
    http_Do w download_url = HttpError ->
    update_run fs (inl ErrDownload, fs, before_response)
| run_bad_status code body :
    stale fs -> NewRequest_ok download_url = true ->
    http_Do w download_url = HttpResponse code body -> code <> StatusOK ->
    update_run fs (inl (ErrHTTPStatus code), fs, before_response)
| run_extract_failed body e fs' tr :
    stale fs -> NewRequest_ok download_url = true ->
    http_Do w download_url = HttpResponse StatusOK body ->
    extract_run fs (inl e, fs', tr) ->
    update_run fs (inl (ErrExtract e), fs', (before_response ++ tr)%list)
| run_updated body fs' tr :
    stale fs -> NewRequest_ok download_url = true ->
    http_Do w download_url = HttpResponse StatusOK body ->
    extract_run fs (inr tt, fs', tr) ->
    update_run fs
      (inr tt, fs',
       (before_response ++ tr
        ++ [EvLog Info "GeoLite2 City database successfully updated."])%list).

End SpecPipeline.

(** Events of the mutex, and requests. *)
Definition is_lock_event (ev : Event) : bool :=
  match ev with
  | EvLock | EvUnlock | EvRLock | EvRUnlock => true
  | _ => false
  end.

Definition is_request (ev : Event) : bool :=
  match ev with
  | EvHttpGet _ => true
  | _ => false
  end.

(* ===================================================================== *)
(** ** A concrete runtime                                                 *)
(* ===================================================================== *)

(** Stand-ins for the library capabilities, small enough to evaluate: they
    instantiate the theorems at concrete inputs. The address parser reads
    dotted-quad IPv4 literals and IPv6 literals of hexadecimal groups with at
    most one [::]. A database is valid when it starts with the byte [0xab];
    every lookup in it gives the same record. *)
Module Sample.

Local Open Scope string_scope.

Definition digit_of (base : N) (c : ascii) : option N :=
  let n := N_of_ascii c in
  let d := if (48 <=? n)%N && (n <=? 57)%N then Some (n - 48)%N
           else if (97 <=? n)%N && (n <=? 102)%N then Some (n - 87)%N
           else if (65 <=? n)%N && (n <=? 70)%N then Some (n - 55)%N
           else None in
  d ≫= fun d => if (d <? base)%N then Some d else None.

Fixpoint parse_digits (base : N) (s : string) (acc : N) : option N :=
  match s with
  | EmptyString => Some acc
  | String c s' => d ← digit_of base c; parse_digits base s' (base * acc + d)%N
  end.

(** A number of one to [maxlen] digits. *)
Definition parse_num (base : N) (maxlen : nat) (s : string) : option N :=
  if decide (s = "") then None
  else if decide (String.length s ≤ maxlen)%nat then parse_digits base s 0
  else None.

(** A decimal field without a leading zero. *)
Definition parse_dec (maxlen : nat) (s : string) : option N :=
  match s with
  | String "0" (String _ _) => None
  | _ => parse_num 10 maxlen s
  end.

Definition parse_octet (s : string) : option byte :=
  n ← parse_dec 3 s; Byte.of_N n.

Definition parse_v4 (s : string) : option (list byte) :=
  match Split s "."%char with
  | [a; b; c; d] =>
      a ← parse_octet a; b ← parse_octet b; c ← parse_octet c; d ← parse_octet d;
      Some [a; b; c; d]
  | _ => None
  end.

(** A group of one to four hexadecimal digits, as two bytes. *)
Definition parse_group (s : string) : option (list byte) :=
  n ← parse_num 16 4 s; Some [byte_of_N (n / 256); byte_of_N n].

Fixpoint parse_groups (l : list string) : option (list byte) :=
  match l with
  | [] => Some []
  | g :: l' => x ← parse_group g; r ← parse_groups l'; Some (x ++ r)%list
  end.

Definition groups_of (s : string) : option (list byte) :=
  if decide (s = "") then Some [] else parse_groups (Split s ":"%char).

(** The position of the first [::], as the parts before and after it. *)
Fixpoint split_ellipsis (s : string) : option (string * string) :=
  match s with
  | String ":" (String ":" rest) => Some ("", rest)
  | String c s' =>
      match split_ellipsis s' with
      | Some (l, r) => Some (String c l, r)
      | None => None
      end
  | EmptyString => None
  end.

Definition parse_v6 (s : string) : option (list byte) :=
  match split_ellipsis s with
  | None =>
      g ← groups_of s;
      if decide (length g = 16%nat) then Some g else None
  | Some (l, r) =>
      gl ← groups_of l; gr ← groups_of r;
      if decide (length gl + length gr ≤ 14)%nat
      then Some (gl ++ replicate (16 - length gl - length gr) x00 ++ gr)%list
      else None
  end.

Definition parse_ip (s : string) : option IP :=
  match parse_v4 s with
  | Some v4 => Some (v4InV6Prefix ++ v4)%list
  | None => parse_v6 s
  end.

(** [IP.Mask] for an address and a mask of the same length. *)
Fixpoint mask_bytes (ip m : list byte) : list byte :=
  match ip, m with
  | x :: ip', k :: m' => byte_of_N (N.land (Byte.to_N x) (Byte.to_N k)) :: mask_bytes ip' m'
  | _, _ => []
  end.

Fixpoint split_slash (s : string) : option (string * string) :=
  match s with
  | String "/" rest => Some ("", rest)
  | String c s' =>
      match split_slash s' with
      | Some (l, r) => Some (String c l, r)
      | None => None
      end
  | EmptyString => None
  end.

(** [net.ParseCIDR]: an IPv4 network has a 4-byte number and mask, an IPv6
    network 16-byte ones. *)
Definition parse_cidr (s : string) : option (IP * IPNet) :=
  '(addr, len) ← split_slash s;
  n ← parse_dec 3 len;
  match parse_v4 addr with
  | Some v4 =>
      if (n <=? 32)%N
      then let m := CIDRMask (Z.of_N n) 32 in
           Some ((v4InV6Prefix ++ v4)%list, mkIPNet (mask_bytes v4 m) m)
      else None
  | None =>
      v6 ← parse_v6 addr;
      if (n <=? 128)%N
      then let m := CIDRMask (Z.of_N n) 128 in
           Some (v6, mkIPNet (mask_bytes v6 m) m)
      else None
  end.

Definition is_space (c : ascii) : bool :=
  let n := N_of_ascii c in (n =? 32)%N || ((9 <=? n)%N && (n <=? 13)%N).

Fixpoint trim_left (s : string) : string :=
  match s with
  | String c s' => if is_space c then trim_left s' else s
  | EmptyString => EmptyString
  end.

Definition trim_space (s : string) : string :=
  let r := trim_left (string_of_list_ascii (rev (list_ascii_of_string (trim_left s)))) in
  string_of_list_ascii (rev (list_ascii_of_string r)).

(** Formatting with the first [%s] replaced by the argument. *)
Fixpoint sprintf (format arg : string) : string :=
  match format with
  | String "%" (String "s" rest) => arg +:+ rest
  | String c rest => String c (sprintf rest arg)
  | EmptyString => EmptyString
  end.

Fixpoint drop_elem (l : list ascii) : list ascii :=
  match l with
  | c :: l' => if IsPathSeparator c then l' else drop_elem l'
  | [] => []
  end.

(** The directory part of a path that is already clean. *)
Definition dir (path : string) : string :=
  match rev (drop_elem (rev (list_ascii_of_string path))) with
  | [] => "."
  | d => string_of_list_ascii d
  end.

Definition url_ok (url : string) : bool :=
  negb (bool_decide (url = "")) && forallb (fun c => negb (is_space c)) (list_ascii_of_string url).

Definition open_db (bytes : list byte) : option (list byte) :=
  match bytes with
  | xab :: _ => Some bytes
  | _ => None
  end.

Definition lookup_db (db : list byte) (addr : IP) : option GeoRecord :=
  Some (mkGeoRecord {[ "en" := "Zurich" ]} {[ "en" := "Switzerland" ]}).

(** Stand-in for the default download URL template. *)
Definition default_url : string :=
  "https://download.example/geoip_download?license_key=%s&suffix=tar.gz".

Definition db_path : string := "data/GeoLite2-City.mmdb".

(** A deployment without a license key, on the default URL, with one local
    IPv6 range. *)
Definition common : Common :=
  mkCommon (mkEnvConfig "" default_url db_path "fd00::/8") default_url.

(** A deployment without a license key that downloads from a mirror. *)
Definition common_mirror : Common :=
  mkCommon (mkEnvConfig "" "https://mirror.example/GeoLite2-City.tar.gz" db_path "")
           default_url.

(** A deployment that declares the IPv6 loopback address a local range. *)
Definition common_loopback_lan : Common :=
  mkCommon (mkEnvConfig "KEY" default_url db_path "::1/128") default_url.

(** A deployment whose second local range is an IPv4 range. *)
Definition common_bad_ranges : Common :=
  mkCommon (mkEnvConfig "KEY" default_url db_path "fd00::/8, 10.0.0.0/8") default_url.

(** Runs: the time is day 100; the download answers 200 with [body]; the
    staging file gets the name [geolite.123.mmdb.tmp] in the directory asked
    for; disk and rename work. *)
Definition day : Z := 24 * 3600 * 1000000000.

Definition world (body : Body) : World :=
  mkWorld (100 * day)
          (fun _ => HttpResponse 200 body)
          (fun dir _ => Some (dir +:+ "/geolite.123.mmdb.tmp"))
          true true.

Definition readme : TarItem :=
  TarEntry (mkHeader TypeReg "GeoLite2-City_20240101/README.txt" 2) [x68; x69] true.

Definition database_entry (size : Z) (data : list byte) : TarItem :=
  TarEntry (mkHeader TypeReg "GeoLite2-City_20240101/GeoLite2-City.mmdb" size) data true.

(** A good archive, one whose database does not decode, and one whose
    database entry announces 400 MiB. *)
Definition body_ok : Body := GzipTar [readme; database_entry 3 [xab; x01; x02]].
Definition body_corrupt : Body := GzipTar [readme; database_entry 3 [x00; x01; x02]].
Definition body_bomb : Body := GzipTar [readme; database_entry (400 * 1024 * 1024) [xab]].

(** An installed database of day 0, and one of day 99. *)
Definition fs_old : gmap string File := {[ db_path := mkFile [xab] 0 ]}.
Definition fs_fresh : gmap string File := {[ db_path := mkFile [xab] (99 * day) ]}.

(** A run in which the download is answered with 503. *)
Definition world_unavailable : World :=
  mkWorld (100 * day)
          (fun _ => HttpResponse 503 NotGzip)
          (fun dir _ => Some (dir +:+ "/geolite.123.mmdb.tmp"))
          true true.

(** A deployment with a license key and two local ranges around a blank
    entry. *)
Definition common_two_ranges : Common :=
  mkCommon (mkEnvConfig "KEY" default_url db_path "fd00::/8, ,fe80::/10") default_url.

(** An archive without the database file, and one in which a second database
    entry and a damaged tail follow the first. *)
Definition body_other : Body := GzipTar [readme].
Definition body_tail : Body :=
  GzipTar [readme; database_entry 3 [xab; x01; x02];
           database_entry (400 * 1024 * 1024) [xab]; TarError].

#[export] Instance runtime : Runtime := {|
  Addr := IP;
  Reader := list byte;
  ParseIP := parse_ip;
  ParseAddr := parse_ip;
  ParseCIDR := parse_cidr;
  TrimSpace := trim_space;
  Sprintf := sprintf;
  Dir := dir;
  NewRequest_ok := url_ok;
  mmdb_Open := open_db;
  mmdb_Lookup := lookup_db
|}.

#[export] Instance runtime_laws : RuntimeLaws runtime.
Proof. split; [intros s ip H; exists ip; exact H | reflexivity | reflexivity]. Qed.

End Sample.

(* ===================================================================== *)
(** ** Facts about addresses and networks                                 *)
(* ===================================================================== *)

Section NetFacts.

Lemma To4_Some_inv ip x : To4 ip = Some x -> exists a b c d, x = [a; b; c; d].
Proof.
  unfold To4. case_decide as Hl.
  - intros [= <-]. destruct ip as [|a [|b [|c [|d [|? ?]]]]]; try discriminate. eauto.
  - destruct (_ && _) eqn:E; [|discriminate]. intros [= <-].
    repeat (apply andb_prop in E as [E ?]). apply bool_decide_eq_true in E.
    do 16 (destruct ip as [|? ip]; try discriminate). destruct ip; try discriminate.
    simpl. eauto.
Qed.

Lemma To4_None_length ip : To4 ip = None -> length ip <> IPv4len.
Proof. unfold To4. case_decide; [discriminate | auto]. Qed.

Lemma byte_bound (b : byte) : (Byte.to_N b < 256)%N.
Proof. pose proof (Byte.to_N_bounded b). lia. Qed.

Lemma to_N_inj (x y : byte) : Byte.to_N x = Byte.to_N y -> x = y.
Proof.
  intros H. pose proof (Byte.of_to_N x) as Hx. rewrite H, Byte.of_to_N in Hx.
  congruence.
Qed.

Lemma land_ff b : N.land (Byte.to_N b) 255 = Byte.to_N b.
Proof. destruct b; reflexivity. Qed.

Lemma land_f0 b : (16 =? N.land (Byte.to_N b) 240)%N = (Byte.to_N b / 16 =? 1)%N.
Proof. destruct b; reflexivity. Qed.

Lemma land_c0 b : (64 =? N.land (Byte.to_N b) 192)%N = (Byte.to_N b / 64 =? 1)%N.
Proof. destruct b; reflexivity. Qed.

(** Under a mask of [0xff] bytes the comparison is equality. *)
Lemma masked_eq_full nn ip :
  length ip = length nn ->
  masked_eq nn (replicate (length nn) xff) ip = bool_decide (nn = ip).
Proof.
  revert ip. induction nn as [|n nn IH]; intros [|x ip] Hlen; try discriminate.
  - reflexivity.
  - simpl. change (Byte.to_N xff) with 255%N. rewrite !land_ff, IH by (simpl in Hlen; lia).
    destruct (N.eqb_spec (Byte.to_N n) (Byte.to_N x)) as [E|E].
    + apply to_N_inj in E as ->. simpl.
      apply eq_iff_eq_true. rewrite !bool_decide_eq_true. split; congruence.
    + simpl. symmetry. apply bool_decide_eq_false. intros [= -> _]. auto.
Qed.

(** The shape of [Contains] for the built-in IPv4 networks. *)
Ltac contains_v4 nn m :=
  let E := fresh "E" in
  intros ip; unfold Contains;
  change (networkNumberAndMask _) with (nn, m);
  cbv beta iota; unfold Spec.in_block4;
  destruct (To4 ip) as [x|] eqn:E;
  [ destruct (To4_Some_inv _ _ E) as (a & b & c & d & ->);
    simpl length; rewrite decide_True by reflexivity;
    unfold masked_eq;
    change (Byte.to_N xff) with 255%N; change (Byte.to_N x00) with 0%N;
    rewrite ?N.land_0_r, ?land_ff
  | apply To4_None_length in E; rewrite decide_False by exact E; reflexivity ].

Ltac octets a b c d :=
  pose proof (byte_bound a); pose proof (byte_bound b);
  pose proof (byte_bound c); pose proof (byte_bound d);
  unfold Spec.addr4;
  change (2 ^ 24)%N with 16777216%N; change (2 ^ 16)%N with 65536%N;
  change (2 ^ 8)%N with 256%N;
  generalize dependent (Byte.to_N a); generalize dependent (Byte.to_N b);
  generalize dependent (Byte.to_N c); generalize dependent (Byte.to_N d);
  intros; simpl (0 =? 0)%N; rewrite ?andb_true_r;
  apply eq_iff_eq_true; rewrite ?andb_true_iff, ?N.eqb_eq;
  zify; Z.div_mod_to_equations; lia.

Lemma Contains_10 :
  forall ip, Contains (mkIPNet (IPv4 x0a x00 x00 x00) (CIDRMask 8 32)) ip
             = Spec.in_block4 (Spec.addr4 10 0 0 0) 8 ip.
Proof.
  contains_v4 [x0a; x00; x00; x00] [xff; x00; x00; x00].
  change (Byte.to_N x0a) with 10%N. change (32 - 8)%N with 24%N.
  change (2 ^ 24)%N with 16777216%N. octets a b c d.
Qed.

Lemma Contains_127 :
  forall ip, Contains (mkIPNet (IPv4 x7f x00 x00 x00) (CIDRMask 8 32)) ip
             = Spec.in_block4 (Spec.addr4 127 0 0 0) 8 ip.
Proof.
  contains_v4 [x7f; x00; x00; x00] [xff; x00; x00; x00].
  change (Byte.to_N x7f) with 127%N. change (32 - 8)%N with 24%N.
  change (2 ^ 24)%N with 16777216%N. octets a b c d.
Qed.

Lemma Contains_192_168 :
  forall ip, Contains (mkIPNet (IPv4 xc0 xa8 x00 x00) (CIDRMask 16 32)) ip
             = Spec.in_block4 (Spec.addr4 192 168 0 0) 16 ip.
Proof.
  contains_v4 [xc0; xa8; x00; x00] [xff; xff; x00; x00].
  change (Byte.to_N xc0) with 192%N. change (Byte.to_N xa8) with 168%N.
  change (32 - 16)%N with 16%N.
  change (2 ^ 16)%N with 65536%N. octets a b c d.
Qed.

Lemma Contains_172_16 :
  forall ip, Contains (mkIPNet (IPv4 xac x10 x00 x00) (CIDRMask 12 32)) ip
             = Spec.in_block4 (Spec.addr4 172 16 0 0) 12 ip.
Proof.
  contains_v4 [xac; x10; x00; x00] [xff; xf0; x00; x00].
  change (N.land (Byte.to_N x10) (Byte.to_N xf0)) with 16%N.
  change (Byte.to_N xf0) with 240%N. rewrite land_f0.
  change (Byte.to_N xac) with 172%N. change (32 - 12)%N with 20%N.
  change (2 ^ 20)%N with 1048576%N. octets a b c d.
Qed.

Lemma Contains_100_64 :
  forall ip, Contains (mkIPNet (IPv4 x64 x40 x00 x00) (CIDRMask 10 32)) ip
             = Spec.in_block4 (Spec.addr4 100 64 0 0) 10 ip.
Proof.
  contains_v4 [x64; x40; x00; x00] [xff; xc0; x00; x00].
  change (N.land (Byte.to_N x40) (Byte.to_N xc0)) with 64%N.
  change (Byte.to_N xc0) with 192%N. rewrite land_c0.
  change (Byte.to_N x64) with 100%N. change (32 - 10)%N with 22%N.
  change (2 ^ 22)%N with 4194304%N. octets a b c d.
Qed.

Lemma Contains_loopback6 ip :
  Contains (mkIPNet IPv6loopback (CIDRMask 128 128)) ip = bool_decide (ip = IPv6loopback).
Proof.
  unfold Contains.
  change (networkNumberAndMask _) with (IPv6loopback, replicate (length IPv6loopback) xff).
  cbv beta iota. destruct (To4 ip) as [x|] eqn:E.
  - destruct (To4_Some_inv _ _ E) as (a & b & c & d & ->).
    rewrite decide_False by discriminate. symmetry. apply bool_decide_eq_false.
    intros ->. discriminate E.
  - case_decide as Hl.
    + rewrite masked_eq_full by exact Hl.
      apply eq_iff_eq_true. rewrite !bool_decide_eq_true. split; congruence.
    + symmetry. apply bool_decide_eq_false. intros ->. apply Hl. reflexivity.
Qed.

End NetFacts.

(* ===================================================================== *)
(** ** The range classifier and the lookup gateway                        *)
(* ===================================================================== *)

Section Classifier.

Context {RT : Runtime} {RL : RuntimeLaws RT}.
Variable common : Common.

Local Open Scope string_scope.

Lemma isLocalIPv6_spec s ip :
  isLocalIPv6 s ip = Spec.is_ipv6 ip && Spec.in_local_range (localIPv6Ranges s) ip.
Proof.
  unfold isLocalIPv6, Spec.is_ipv6, Spec.in_local_range.
  destruct (To4 ip); reflexivity.
Qed.

(** The checks of the code and the steps of the specification agree on every
    address and every configured range set. *)
Lemma rangeLabel_spec s ip : rangeLabel s ip = Spec.classify (localIPv6Ranges s) ip.
Proof.
  unfold rangeLabel, Spec.classify. rewrite isLocalIPv6_spec.
  unfold tailscaleIPNets, privateLanIPNets, localhostIPNets, existsb.
  rewrite Contains_10, Contains_127, Contains_192_168, Contains_172_16,
    Contains_100_64, Contains_loopback6, !orb_false_r.
  unfold Spec.in_cgnat, Spec.in_private, Spec.in_loopback.
  rewrite <- !orb_assoc. reflexivity.
Qed.

(** The database part opens the file at the configured path, once, and
    leaves the file system alone. *)
Lemma lookupDatabase_run addr fs :
  exists r ok,
    lookupDatabase common addr fs
    = (r, fs, [EvOpenDB (GeoLiteDBPath (EnvConfig common)) ok]).
Proof.
  unfold lookupDatabase, Open, mbind, M_bind, mret, M_ret, fail.
  destruct (decoded _ _) as [db|]; [|eauto].
  destruct (mmdb_Lookup db addr); eauto.
Qed.

(** A label ends the lookup at once. *)
Lemma GetLocationByIP_label s ipAddress ip label fs :
  ParseIP ipAddress = Some ip ->
  rangeLabel s ip = Some label ->
  GetLocationByIP common s ipAddress fs = (inr label, fs, []).
Proof.
  intros Hp Hl. unfold GetLocationByIP.
  case_decide as He; [subst; rewrite ParseIP_empty in Hp; discriminate|].
  rewrite Hp. simpl. rewrite Hl. reflexivity.
Qed.

(** With no label, a parsed address goes to the database under the read
    lock. *)
Lemma GetLocationByIP_miss s ipAddress ip fs :
  ParseIP ipAddress = Some ip ->
  rangeLabel s ip = None ->
  exists r ok,
    GetLocationByIP common s ipAddress fs
    = (r, fs, [EvRLock; EvOpenDB (GeoLiteDBPath (EnvConfig common)) ok; EvRUnlock]).
Proof.
  intros Hp Hl. unfold GetLocationByIP.
  case_decide as He; [subst; rewrite ParseIP_empty in Hp; discriminate|].
  rewrite Hp. simpl. rewrite Hl.
  destruct (ParseIP_ParseAddr _ _ Hp) as [addr ->].
  destruct (lookupDatabase_run addr fs) as (r & ok & Hrun).
  exists r, ok. unfold mbind, M_bind, emit, deferred. rewrite Hrun. reflexivity.
Qed.

(** The built-in blocks are IPv4 blocks and pairwise disjoint. *)
Ltac block4 :=
  unfold Spec.in_cgnat, Spec.in_private, Spec.in_loopback, Spec.is_ipv6,
    Spec.in_block4, Spec.addr4;
  change (32 - 8)%N with 24%N; change (32 - 10)%N with 22%N;
  change (32 - 12)%N with 20%N; change (32 - 16)%N with 16%N;
  change (2 ^ 24)%N with 16777216%N; change (2 ^ 22)%N with 4194304%N;
  change (2 ^ 20)%N with 1048576%N; change (2 ^ 16)%N with 65536%N;
  change (2 ^ 8)%N with 256%N.

Lemma in_block4_To4 base len ip :
  Spec.in_block4 base len ip = true -> Spec.is_ipv6 ip = false.
Proof.
  unfold Spec.in_block4, Spec.is_ipv6. destruct (To4 ip); [|discriminate].
  intros _. apply bool_decide_eq_false. discriminate.
Qed.

Lemma cgnat_private_disjoint ip :
  Spec.in_private ip = true -> Spec.in_cgnat ip = false.
Proof.
  block4. destruct (To4 ip) as [[|a [|b [|c [|d [|? ?]]]]]|]; try discriminate.
  pose proof (byte_bound a). pose proof (byte_bound b).
  pose proof (byte_bound c). pose proof (byte_bound d).
  rewrite !orb_true_iff, !N.eqb_eq, N.eqb_neq.
  zify. Z.div_mod_to_equations. lia.
Qed.

Lemma loopback4_disjoint ip :
  Spec.in_block4 (Spec.addr4 127 0 0 0) 8 ip = true ->
  Spec.in_cgnat ip = false /\ Spec.in_private ip = false.
Proof.
  block4. destruct (To4 ip) as [[|a [|b [|c [|d [|? ?]]]]]|]; try discriminate.
  pose proof (byte_bound a). pose proof (byte_bound b).
  pose proof (byte_bound c). pose proof (byte_bound d).
  rewrite !orb_false_iff, !N.eqb_eq, !N.eqb_neq.
  zify. Z.div_mod_to_equations. lia.
Qed.

(** The labels of the addresses in the built-in ranges. *)
Lemma classify_cgnat ranges ip :
  Spec.in_cgnat ip = true -> Spec.classify ranges ip = Some Spec.Tailscale.
Proof.
  intros H. unfold Spec.classify.
  rewrite (in_block4_To4 _ _ _ H), H. reflexivity.
Qed.

Lemma classify_private ranges ip :
  Spec.in_private ip = true -> Spec.classify ranges ip = Some Spec.LAN.
Proof.
  intros H. unfold Spec.classify. rewrite (cgnat_private_disjoint _ H), H.
  destruct (_ && _); reflexivity.
Qed.

Lemma classify_loopback4 ranges ip :
  Spec.in_block4 (Spec.addr4 127 0 0 0) 8 ip = true ->
  Spec.classify ranges ip = Some Spec.Localhost.
Proof.
  intros H. unfold Spec.classify, Spec.in_loopback.
  destruct (loopback4_disjoint _ H) as [-> ->].
  rewrite (in_block4_To4 _ _ _ H), H. reflexivity.
Qed.

Lemma classify_loopback6 ranges :
  Spec.classify ranges IPv6loopback
  = Some (if Spec.in_local_range ranges IPv6loopback then Spec.LAN else Spec.Localhost).
Proof.
  unfold Spec.classify. change (Spec.is_ipv6 IPv6loopback) with true.
  change (Spec.in_cgnat IPv6loopback) with false.
  change (Spec.in_private IPv6loopback) with false.
  change (Spec.in_loopback IPv6loopback) with true.
  destruct (Spec.in_local_range _ _); reflexivity.
Qed.

(** C6. For every address that [net.ParseIP] accepts, the lookup follows the
    five steps of the range classifier in their order, the first match
    deciding: a configured local IPv6 range (LAN), 100.64.0.0/10 (Tailscale),
    the three private blocks (LAN), 127.0.0.0/8 or ::1 (localhost); an address
    no step matches goes to the database, which is opened under the read
    lock. *)
Theorem C6_classifier_precedence s ipAddress ip fs :
  ParseIP ipAddress = Some ip ->
  match Spec.classify (localIPv6Ranges s) ip with
  | Some label => GetLocationByIP common s ipAddress fs = (inr label, fs, [])
  | None =>
      exists r ok,
        GetLocationByIP common s ipAddress fs
        = (r, fs, [EvRLock; EvOpenDB (GeoLiteDBPath (EnvConfig common)) ok; EvRUnlock])
  end.
Proof.
  intros Hp. rewrite <- rangeLabel_spec.
  destruct (rangeLabel s ip) as [label|] eqn:Hl.
  - eapply GetLocationByIP_label; eassumption.
  - eapply GetLocationByIP_miss; eassumption.
Qed.

(** C7, as the code has it. An address in 10.0.0.0/8, 172.16.0.0/12,
    192.168.0.0/16, 100.64.0.0/10 or 127.0.0.0/8 is answered with the label
    pair of its block and no error; so is ::1, with the localhost pair when
    no configured local IPv6 range contains it and with the LAN pair when one
    does (step 1 of the classifier comes first). In all these cases the run
    has no event at all: the database file is neither opened nor decoded. *)
Theorem C7_internal_addresses_skip_database s ipAddress ip fs :
  ParseIP ipAddress = Some ip ->
  (Spec.in_private ip = true ->
     GetLocationByIP common s ipAddress fs = (inr ("Internal Network", "LAN"), fs, []))
  /\ (Spec.in_cgnat ip = true ->
     GetLocationByIP common s ipAddress fs = (inr ("Internal Network", "Tailscale"), fs, []))
  /\ (Spec.in_block4 (Spec.addr4 127 0 0 0) 8 ip = true ->
     GetLocationByIP common s ipAddress fs = (inr ("Internal Network", "localhost"), fs, []))
  /\ (ip = IPv6loopback ->
     GetLocationByIP common s ipAddress fs
     = (inr ("Internal Network",
             if Spec.in_local_range (localIPv6Ranges s) ip then "LAN" else "localhost"),
        fs, [])).
Proof.
  intros Hp. repeat split; intros H; eapply GetLocationByIP_label; try exact Hp;
    rewrite rangeLabel_spec.
  - apply classify_private, H.
  - apply classify_cgnat, H.
  - apply classify_loopback4, H.
  - subst ip. rewrite classify_loopback6.
    destruct (Spec.in_local_range _ _); reflexivity.
Qed.

(** C9. The empty string is answered with an empty country, an empty city
    and no error; nothing is parsed, locked or opened. *)
Theorem C9_empty_input s fs :
  GetLocationByIP common s "" fs = (inr ("", ""), fs, []).
Proof. reflexivity. Qed.

End Classifier.

(** The concrete runtime serves the examples from here on; inside the
    sections below the runtime of the context takes precedence. *)
Import Sample.

Lemma C6_classifier_precedence_witness :
  ParseIP (Runtime := Sample.runtime) "fd00::1"
  = Some [xfd; x00; x00; x00; x00; x00; x00; x00;
          x00; x00; x00; x00; x00; x00; x00; x01]
  /\ GetLocationByIP (RT := Sample.runtime) Sample.common
       (fst (NewGeoLiteService Sample.common)) "fd00::1" ∅
     = (inr ("Internal Network", "LAN"), ∅, [])%string.
Proof.
  split; [reflexivity|].
  exact (C6_classifier_precedence (RT := Sample.runtime) Sample.common
           (fst (NewGeoLiteService Sample.common)) "fd00::1" _ ∅ eq_refl).
Defined.

Lemma C7_internal_addresses_skip_database_witness :
  ParseIP (Runtime := Sample.runtime) "172.20.3.4" = Some (IPv4 xac x14 x03 x04)
  /\ Spec.in_private (IPv4 xac x14 x03 x04) = true
  /\ GetLocationByIP (RT := Sample.runtime) Sample.common
       (fst (NewGeoLiteService Sample.common)) "172.20.3.4" ∅
     = (inr ("Internal Network", "LAN"), ∅, [])%string.
Proof.
  split; [reflexivity|]. split; [reflexivity|].
  exact (proj1 (C7_internal_addresses_skip_database (RT := Sample.runtime)
                  Sample.common (fst (NewGeoLiteService Sample.common))
                  "172.20.3.4" _ ∅ eq_refl)
               eq_refl).
Defined.

(** C7, as stated, fails for ::1: with [::1/128] among the local IPv6 ranges
    the lookup of [::1] gives the LAN pair, not the localhost pair. *)
Lemma C7_counterexample :
  ParseIP "::1" = Some IPv6loopback
  /\ GetLocationByIP common_loopback_lan
       (fst (NewGeoLiteService common_loopback_lan)) "::1" ∅
     = (inr ("Internal Network", "LAN"), ∅, [])%string
  /\ GetLocationByIP common_loopback_lan
       (fst (NewGeoLiteService common_loopback_lan)) "::1" ∅
     <> (inr ("Internal Network", "localhost"), ∅, [])%string.
Proof. split; [reflexivity|]. split; [reflexivity|]. discriminate. Qed.

(* ===================================================================== *)
(** ** Construction of the service                                        *)
(* ===================================================================== *)

Section Construction.

Context {RT : Runtime} {RL : RuntimeLaws RT}.
Variable common : Common.

Local Open Scope string_scope.

Lemma parse_ranges_bad ranges localRanges entry :
  entry ∈ (TrimSpace <$> ranges) -> entry <> "" -> bad_range entry ->
  exists err, parse_ranges ranges localRanges = inl err.
Proof.
  intros Hin Hne Hbad. revert localRanges Hin.
  induction ranges as [|r ranges IH]; intros localRanges Hin.
  - apply elem_of_nil in Hin as [].
  - rewrite fmap_cons in Hin. simpl. case_decide as He.
    + apply elem_of_cons in Hin as [->|Hin]; [contradiction|]. eauto.
    + destruct (ParseCIDR (TrimSpace r)) as [[ip ipNet]|] eqn:Hc; [|eauto].
      destruct (To4 (net_IP ipNet)) eqn:H4; [eauto|].
      apply elem_of_cons in Hin as [->|Hin]; [|eauto].
      destruct Hbad as [Hbad|(ip' & n' & Hbad & Hv4)].
      * congruence.
      * rewrite Hc in Hbad. injection Hbad as <- <-. rewrite H4 in Hv4.
        destruct Hv4 as [? [=]].
Qed.

Lemma initializeIPv6LocalRanges_bad s entry :
  range_entry (LocalIPv6Ranges (EnvConfig common)) entry -> bad_range entry ->
  exists err, initializeIPv6LocalRanges common s = (Some err, s, []).
Proof.
  intros [Hin Hne] Hbad. unfold initializeIPv6LocalRanges.
  case_decide as He.
  - rewrite He in Hin. simpl in Hin. rewrite TrimSpace_empty in Hin.
    apply list_elem_of_singleton in Hin. contradiction.
  - destruct (parse_ranges_bad _ [] _ Hin Hne Hbad) as [err ->]. eauto.
Qed.

(** The flag is decided by the license key and the URL, whatever the local
    ranges are. *)
Lemma NewGeoLiteService_disableUpdater :
  disableUpdater (fst (NewGeoLiteService common))
  = bool_decide (MaxMindLicenseKey (EnvConfig common) = "")
    && bool_decide (GeoLiteDBUrl (EnvConfig common) = MaxMindGeoLiteCityUrl common).
Proof.
  unfold NewGeoLiteService, initializeIPv6LocalRanges.
  destruct (_ && _); case_decide; try reflexivity;
    destruct (parse_ranges _ _); reflexivity.
Qed.

(** C8. When an entry of the local-IPv6-ranges setting fails CIDR parsing or
    is an IPv4 range, the service is still constructed, what is logged are
    warnings only, the last of them about the ranges, and the local range set
    is empty: step 1 of the classifier matches no address and the remaining
    steps classify as they do without any configured range. *)
Theorem C8_bad_ranges_degrade entry :
  range_entry (LocalIPv6Ranges (EnvConfig common)) entry -> bad_range entry ->
  let service := fst (NewGeoLiteService common) in
  let log := snd (NewGeoLiteService common) in
  localIPv6Ranges service = []
  /\ (exists pre, log = (pre ++ [EvLog Warn "Failed to initialize IPv6 local ranges"])%list)
  /\ Forall is_warning log
  /\ forall ip, isLocalIPv6 service ip = false
               /\ rangeLabel service ip = Spec.classify [] ip.
Proof.
  intros He Hbad service log. subst service log.
  unfold NewGeoLiteService.
  set (s0 := if _ && _ then _ else _).
  assert (Hs0 : localIPv6Ranges (fst s0) = [] /\ Forall is_warning (snd s0)).
  { subst s0. destruct (_ && _); simpl; split; auto.
    constructor; [eexists; reflexivity | constructor]. }
  destruct s0 as [service log1]. simpl in Hs0. destruct Hs0 as [Hr Hw].
  destruct (initializeIPv6LocalRanges_bad service entry He Hbad) as [err ->].
  simpl. split; [exact Hr|]. split; [exists log1; reflexivity|].
  split.
  - apply Forall_app. split; [exact Hw|].
    constructor; [eexists; reflexivity | constructor].
  - intros ip. split.
    + unfold isLocalIPv6. rewrite Hr. destruct (To4 ip); reflexivity.
    + rewrite rangeLabel_spec, Hr. reflexivity.
Qed.

(** C3, as the code has it. With an empty license key and the database URL
    left at the default MaxMind template, the constructed service reports its
    updater disabled. *)
Theorem C3_updater_disabled_on_default_url :
  MaxMindLicenseKey (EnvConfig common) = "" ->
  GeoLiteDBUrl (EnvConfig common) = MaxMindGeoLiteCityUrl common ->
  DisableUpdater (fst (NewGeoLiteService common)) = true.
Proof.
  intros Hk Hu. unfold DisableUpdater.
  rewrite NewGeoLiteService_disableUpdater, !bool_decide_eq_true_2 by assumption.
  reflexivity.
Qed.

End Construction.

Lemma C8_bad_ranges_degrade_witness :
  range_entry (LocalIPv6Ranges (EnvConfig common_bad_ranges)) "10.0.0.0/8"
  /\ bad_range "10.0.0.0/8"
  /\ localIPv6Ranges (fst (NewGeoLiteService common_bad_ranges)) = [].
Proof.
  assert (He : range_entry (LocalIPv6Ranges (EnvConfig common_bad_ranges)) "10.0.0.0/8").
  { split; [|discriminate]. vm_compute. apply list_elem_of_In. simpl. auto. }
  assert (Hb : bad_range "10.0.0.0/8").
  { right. eexists _, _. split; [reflexivity|]. eexists. reflexivity. }
  split; [exact He|]. split; [exact Hb|].
  exact (proj1 (C8_bad_ranges_degrade common_bad_ranges "10.0.0.0/8" He Hb)).
Defined.

(** C3, as stated, fails: an empty license key with a mirror URL leaves the
    updater enabled. *)
Lemma C3_counterexample :
  MaxMindLicenseKey (EnvConfig common_mirror) = ""%string
  /\ DisableUpdater (fst (NewGeoLiteService common_mirror)) = false.
Proof. split; reflexivity. Qed.

Lemma C3_updater_disabled_on_default_url_witness :
  MaxMindLicenseKey (EnvConfig Sample.common) = ""%string
  /\ GeoLiteDBUrl (EnvConfig Sample.common) = MaxMindGeoLiteCityUrl Sample.common
  /\ DisableUpdater (fst (NewGeoLiteService Sample.common)) = true.
Proof.
  split; [reflexivity|]. split; [reflexivity|].
  exact (C3_updater_disabled_on_default_url Sample.common eq_refl eq_refl).
Defined.

(* ===================================================================== *)
(** ** The update pipeline                                                *)
(* ===================================================================== *)

Section Pipeline.

Context {RT : Runtime}.
Variable common : Common.
Variable w : World.

Local Open Scope string_scope.

Local Abbreviation dbPath := (GeoLiteDBPath (EnvConfig common)).
Local Abbreviation downloadUrl := (download_url common).

Ltac run_monad :=
  unfold mbind, M_bind, mret, M_ret, fail, emit, try, wrapped; simpl.

(** Saturation does not show below the freshness threshold. *)
Lemma Since_fresh t :
  (Since (now w) t <? 14 * 24 * Hour)%Z = (now w - t <? 14 * 24 * 3600 * 1000000000)%Z.
Proof.
  unfold Since, maxDuration, minDuration, Hour.
  apply eq_iff_eq_true. rewrite !Z.ltb_lt. lia.
Qed.

Lemma isDatabaseUpToDate_run fs :
  isDatabaseUpToDate common w fs
  = (inr (match fs !! dbPath with
          | Some f => bool_decide (Spec.fresh (now w) f)
          | None => false
          end), fs, [EvStat dbPath]).
Proof.
  unfold isDatabaseUpToDate, Stat. run_monad.
  destruct (fs !! dbPath) as [f|]; simpl; [|reflexivity].
  rewrite Since_fresh. unfold Spec.fresh.
  destruct (Z.ltb_spec (now w - modTime f) (14 * 24 * 3600 * 1000000000));
    [rewrite bool_decide_eq_true_2 | rewrite bool_decide_eq_false_2]; auto; lia.
Qed.

(** Every run of [installEntry] is one of the five runs of [install_run]. *)
Lemma installEntry_run data stream_ok fs :
  install_run common w data fs (installEntry common w data stream_ok fs).
Proof.
  unfold installEntry, CreateTemp, Copy, Remove, Rename, Open, decoded. run_monad.
  destruct (temp_name w _ _) as [t|]; [|constructor].
  destruct (fs !! t) eqn:Ht; [constructor|].
  rewrite insert_insert_eq.
  destruct (stream_ok && disk_write_ok w); simpl.
  - rewrite lookup_insert_eq. simpl.
    destruct (mmdb_Open data) as [db|] eqn:Hdb; simpl.
    + destruct (rename_ok w); simpl; rewrite lookup_insert_eq; simpl;
        rewrite delete_insert_eq, (delete_id fs t) by exact Ht.
      * apply run_installed; [exact Ht | rewrite Hdb; eauto].
      * apply run_rename_failed; [exact Ht | rewrite Hdb; eauto].
    + rewrite delete_insert_eq, (delete_id fs t) by exact Ht.
      apply run_invalid; assumption.
  - rewrite delete_insert_eq, (delete_id fs t) by exact Ht.
    apply run_write_failed; assumption.
Qed.

Lemma extractEntries_run items totalSize fs :
  extract_run common w fs (extractEntries common w items totalSize fs).
Proof.
  revert totalSize. induction items as [|[|hdr data stream_ok] items IH]; intros totalSize; simpl.
  - apply run_rejected. set_solver.
  - apply run_rejected. set_solver.
  - destruct (_ && _); [|apply IH].
    destruct (_ <? _)%Z.
    + apply run_rejected. set_solver.
    + eapply run_entry, installEntry_run.
Qed.

Lemma extractDatabase_run s body fs :
  extract_run common w fs (extractDatabase common w s body fs).
Proof.
  destruct body as [|items]; simpl.
  - apply run_rejected. set_solver.
  - apply extractEntries_run.
Qed.

Lemma not_fresh_stale fs :
  match fs !! dbPath with
  | Some f => bool_decide (Spec.fresh (now w) f)
  | None => false
  end = false ->
  stale common w fs.
Proof.
  unfold stale. destruct (fs !! dbPath); [|auto].
  intros H. apply bool_decide_eq_false in H. exact H.
Qed.

(** Every run of [UpdateDatabase] is one of the runs of [update_run]. *)
Lemma UpdateDatabase_run s fs :
  update_run common w fs (UpdateDatabase common w s fs).
Proof.
  unfold UpdateDatabase. unfold mbind at 1, M_bind at 1.
  rewrite isDatabaseUpToDate_run.
  destruct (match fs !! dbPath with Some _ => _ | None => _ end) eqn:Hup.
  - destruct (fs !! dbPath) as [f|] eqn:Hf; [|discriminate].
    apply bool_decide_eq_true in Hup. eapply run_up_to_date; eassumption.
  - apply not_fresh_stale in Hup.
    fold downloadUrl. destruct (NewRequest_ok downloadUrl) eqn:Hreq; run_monad.
    2: { apply run_bad_request; assumption. }
    destruct (http_Do w downloadUrl) as [|code body] eqn:Hhttp; run_monad.
    { apply run_download_failed; assumption. }
    destruct (Z.eqb_spec code StatusOK) as [->|Hcode]; run_monad.
    2: { eapply run_bad_status; eassumption. }
    pose proof (extractDatabase_run s body fs) as Hex.
    destruct (extractDatabase common w s body fs) as [[[e|[]] fs'] tr].
    + exact (run_extract_failed common w fs body e fs' tr Hup Hreq Hhttp Hex).
    + exact (run_updated common w fs body fs' tr Hup Hreq Hhttp Hex).
Qed.

(** *** What the runs have in common *)

Ltac elems H :=
  repeat first
    [ apply elem_of_app in H as [H|H]
    | apply elem_of_cons in H as [H|H]
    | apply elem_of_nil in H as [] ];
  try discriminate H.

(** What the monitor accepts, said with positions in the trace. *)
Lemma renames_validated_sound path validated tr :
  renames_validated path validated tr ->
  forall pre t p ok post,
    tr = (pre ++ EvRename t p ok :: post)%list ->
    p = path /\ (t ∈ validated \/ EvOpenDB t true ∈ pre).
Proof.
  revert validated. induction tr as [|ev tr IH]; intros validated Hmon pre t p ok post Heq.
  - destruct pre; discriminate.
  - destruct pre as [|ev' pre]; simpl in Heq; injection Heq as -> ->.
    + destruct Hmon as [[-> Hin] _]. auto.
    + assert (Hstep : exists validated',
                 renames_validated path validated' (pre ++ EvRename t p ok :: post)%list
                 /\ (t ∈ validated' -> t ∈ validated \/ ev' = EvOpenDB t true)).
      { destruct ev' as [| | | | | |t' [|]| | | | |]; simpl in Hmon;
          try (exists validated; split; [tauto | auto]).
        exists (t' :: validated). split; [exact Hmon|].
        intros [->|Hin]%elem_of_cons; auto. }
      destruct Hstep as (validated' & Hmon' & Hback).
      destruct (IH _ Hmon' pre t p ok post eq_refl) as [-> [Hin|Hin]].
      * split; [reflexivity|]. destruct (Hback Hin) as [?| ->]; [auto|].
        right. apply elem_of_cons. auto.
      * split; [reflexivity|]. right. apply elem_of_cons. auto.
Qed.

(** A failing extraction leaves the file system as it was; what it changed
    on the way held no file before, and nothing was renamed. *)
Lemma extract_run_error fs e fs' tr :
  extract_run common w fs (inl e, fs', tr) ->
  fs' = fs
  /\ (forall ev p, ev ∈ tr -> mutates ev p -> fs !! p = None)
  /\ (forall t p, EvRename t p true ∉ tr).
Proof.
  intros Hrun. inversion Hrun as [e0 He|data r Hinst]; subst.
  - split; [reflexivity|]. split; [intros ev p H; elems H | intros t p H; elems H].
  - inversion Hinst; subst; (split; [reflexivity|]);
      (split; [intros ev p H; elems H; subst ev; simpl; intros Hm; try contradiction; subst p; assumption
              | intros t0 p H; elems H]).
Qed.

(** A successful extraction did exactly one thing to the installed
    database: it replaced it with bytes that decode. *)
Lemma extract_run_success fs fs' tr :
  extract_run common w fs (inr tt, fs', tr) ->
  exists t data,
    fs !! t = None /\ is_Some (mmdb_Open data)
    /\ fs' = <[dbPath := mkFile data (now w)]> fs
    /\ tr = [EvCreateTemp t; EvWrite t true; EvOpenDB t true;
             EvLock; EvRename t dbPath true; EvUnlock].
Proof.
  intros Hrun. inversion Hrun as [|data r Hinst]; subst.
  inversion Hinst; subst. eauto 10.
Qed.

(** Every run of [UpdateDatabase] passes the monitor. *)
Lemma update_run_monitor fs r fs' tr :
  update_run common w fs (r, fs', tr) -> renames_validated dbPath [] tr.
Proof.
  intros Hrun. inversion Hrun as [| | | |? ? ? ? ? ? ? Hex|? ? ? ? ? ? Hex]; subst;
    try exact I.
  - inversion Hex as [|data r0 Hinst]; subst; [exact I|].
    inversion Hinst; subst; simpl; rewrite ?elem_of_cons; tauto.
  - apply extract_run_success in Hex as (t & data & _ & _ & _ & ->).
    simpl. rewrite elem_of_cons. tauto.
Qed.

(** C1. When [UpdateDatabase] returns an error, whichever step failed, the
    file system is the one before the call, so the file at the database path
    has its content and modification time, or is absent, as before. On the
    way only paths that held no file before the call were written to (the
    staging file), and no rename took place: the installed database was never
    touched. *)
Theorem C1_failure_leaves_database s fs e fs' tr :
  UpdateDatabase common w s fs = (inl e, fs', tr) ->
  fs' !! dbPath = fs !! dbPath
  /\ fs' = fs
  /\ (forall ev p, ev ∈ tr -> mutates ev p -> fs !! p = None)
  /\ (forall t p, EvRename t p true ∉ tr).
Proof.
  intros Hrun. pose proof (UpdateDatabase_run s fs) as Hcases. rewrite Hrun in Hcases.
  assert (Hgoal : fs' = fs
                  /\ (forall ev p, ev ∈ tr -> mutates ev p -> fs !! p = None)
                  /\ (forall t p, EvRename t p true ∉ tr)).
  { inversion Hcases; subst;
      try (split; [reflexivity|];
           split; [intros ev p H; elems H; subst ev; simpl; contradiction
                  | intros t p H; elems H]).
    match goal with Hex : extract_run _ _ _ _ |- _ =>
      destruct (extract_run_error _ _ _ _ Hex) as (-> & Hmut & Hren) end.
    split; [reflexivity|]. split.
    - intros ev p H. elems H; try (subst ev; simpl; contradiction). eauto.
    - intros t p H. elems H. exact (Hren _ _ H). }
  destruct Hgoal as (-> & ? & ?). auto.
Qed.

(** C2. In every run of the pipeline, a rename is onto the database path and
    of a staging file that the decoder opened successfully before; when the
    decoder rejects the staging file, the file is removed right away, it is
    gone afterwards, and the pipeline returns an error; and after a successful
    rename the file at the database path is one the decoder accepts. *)
Theorem C2_promotion_requires_validation s fs r fs' tr :
  UpdateDatabase common w s fs = (r, fs', tr) ->
  (forall pre t p ok post,
     tr = (pre ++ EvRename t p ok :: post)%list ->
     p = dbPath /\ EvOpenDB t true ∈ pre)
  /\ (forall t, EvOpenDB t false ∈ tr ->
       (exists e, r = inl e) /\ fs' !! t = None
       /\ exists pre post, tr = (pre ++ EvOpenDB t false :: EvRemove t :: post)%list)
  /\ (forall t, EvRename t dbPath true ∈ tr -> is_Some (decoded fs' dbPath)).
Proof.
  intros Hrun. pose proof (UpdateDatabase_run s fs) as Hcases. rewrite Hrun in Hcases.
  split; [|split].
  - intros pre t p ok post Heq.
    destruct (renames_validated_sound _ _ _ (update_run_monitor _ _ _ _ Hcases)
                _ _ _ _ _ Heq) as [-> [Hin|Hin]]; [|auto].
    apply elem_of_nil in Hin as [].
  - intros t Hin.
    inversion Hcases as [| | | |? ? ? ? ? ? ? Hex|? ? ? ? ? ? Hex]; subst;
      try (elems Hin; fail).
    + inversion Hex as [|data r0 Hinst]; subst; [elems Hin|].
      inversion Hinst; subst; elems Hin.
      injection Hin as ->. split; [eauto|]. split; [assumption|].
      eexists (before_response common ++ [EvCreateTemp _; EvWrite _ true])%list, [].
      reflexivity.
    + apply extract_run_success in Hex as (t0 & data & _ & _ & _ & ->). elems Hin.
  - intros t Hin.
    inversion Hcases as [| | | |? ? ? ? ? ? ? Hex|? ? ? ? ? ? Hex]; subst;
      try (elems Hin; fail).
    + destruct (extract_run_error _ _ _ _ Hex) as (_ & _ & Hren).
      elems Hin. destruct (Hren _ _ Hin).
    + apply extract_run_success in Hex as (t0 & data & _ & Hok & -> & _).
      unfold decoded. rewrite lookup_insert_eq. exact Hok.
Qed.

(** *** Particular runs *)

Lemma wrap64_small z : (- 2 ^ 63 <= z < 2 ^ 63)%Z -> wrap64 z = z.
Proof. intros H. unfold wrap64. rewrite Z.mod_small; lia. Qed.

(** Entries that do not match are passed over; the running total stays. *)
Lemma extractEntries_pass passed items totalSize fs :
  Forall passed_over passed ->
  extractEntries common w (passed ++ items) totalSize fs
  = extractEntries common w items totalSize fs.
Proof.
  induction 1 as [|[|hdr data stream_ok] passed Hp _ IH]; simpl; [reflexivity|destruct Hp|].
  destruct (_ && _) eqn:Hm; [|exact IH].
  apply andb_prop in Hm as [Ht Hb].
  apply bool_decide_eq_true in Ht. apply bool_decide_eq_true in Hb.
  destruct Hp. split; assumption.
Qed.

(** The first matching entry within the limit ends the scan: what follows it
    in the archive is never read. *)
Lemma extractEntries_first_match passed hdr data stream_ok rest totalSize fs :
  Forall passed_over passed -> matching hdr ->
  (0 <= totalSize)%Z -> (0 <= Size hdr)%Z -> (totalSize + Size hdr <= maxTotalSize)%Z ->
  extractEntries common w (passed ++ TarEntry hdr data stream_ok :: rest) totalSize fs
  = installEntry common w data stream_ok fs.
Proof.
  intros Hpassed [Htype Hbase] H0 Hs Hsize. rewrite extractEntries_pass by exact Hpassed.
  simpl. rewrite !bool_decide_eq_true_2 by assumption. simpl.
  rewrite wrap64_small by (unfold maxTotalSize in Hsize; lia).
  destruct (Z.ltb_spec maxTotalSize (totalSize + Size hdr)); [lia | reflexivity].
Qed.

(** A stale database, a request that can be made and a 200 response lead to
    the extraction of the body. *)
Lemma UpdateDatabase_download s fs body :
  stale common w fs -> NewRequest_ok downloadUrl = true ->
  http_Do w downloadUrl = HttpResponse StatusOK body ->
  UpdateDatabase common w s fs
  = match extractDatabase common w s body fs with
    | (inl e, fs', tr) => (inl (ErrExtract e), fs', (before_response common ++ tr)%list)
    | (inr _, fs', tr) =>
        (inr tt, fs',
         (before_response common ++ tr
          ++ [EvLog Info "GeoLite2 City database successfully updated."])%list)
    end.
Proof.
  intros Hstale Hreq Hhttp.
  unfold UpdateDatabase. unfold mbind at 1, M_bind at 1.
  rewrite isDatabaseUpToDate_run.
  assert (Hup : match fs !! dbPath with
                | Some f => bool_decide (Spec.fresh (now w) f)
                | None => false
                end = false).
  { unfold stale in Hstale. destruct (fs !! dbPath); [|reflexivity].
    apply bool_decide_eq_false. exact Hstale. }
  rewrite Hup. fold downloadUrl. rewrite Hreq. run_monad. rewrite Hhttp. run_monad.
  destruct (extractDatabase common w s body fs) as [[[e|[]] fs'] tr]; reflexivity.
Qed.

(** C4. The scan keeps a running total of the sizes of matching entries.
    When a matching entry brings it above 300 MiB, the extraction fails at
    once with the size-limit error, before a staging file exists; and
    [UpdateDatabase], given such an archive, returns that error with the file
    system, and so the installed database, unchanged. *)
Theorem C4_size_limit s passed hdr data stream_ok rest :
  Forall passed_over passed -> matching hdr ->
  (forall totalSize fs,
     (0 <= totalSize)%Z ->
     (maxTotalSize < totalSize + Size hdr < 2 ^ 63)%Z ->
     extractEntries common w (passed ++ TarEntry hdr data stream_ok :: rest) totalSize fs
     = (inl ErrSizeLimit, fs, []))
  /\ (forall fs,
       stale common w fs -> NewRequest_ok downloadUrl = true ->
       http_Do w downloadUrl
       = HttpResponse StatusOK (GzipTar (passed ++ TarEntry hdr data stream_ok :: rest)) ->
       (maxTotalSize < Size hdr < 2 ^ 63)%Z ->
       UpdateDatabase common w s fs
       = (inl (ErrExtract ErrSizeLimit), fs, before_response common)).
Proof.
  intros Hpassed [Htype Hbase].
  assert (Hscan : forall totalSize fs,
             (0 <= totalSize)%Z ->
             (maxTotalSize < totalSize + Size hdr < 2 ^ 63)%Z ->
             extractEntries common w (passed ++ TarEntry hdr data stream_ok :: rest)
               totalSize fs
             = (inl ErrSizeLimit, fs, [])).
  { intros totalSize fs H0 Hsize. rewrite extractEntries_pass by exact Hpassed.
    simpl. rewrite !bool_decide_eq_true_2 by assumption. simpl.
    rewrite wrap64_small by (unfold maxTotalSize in Hsize; lia).
    destruct (Z.ltb_spec maxTotalSize (totalSize + Size hdr)); [reflexivity | lia]. }
  split; [exact Hscan|].
  intros fs Hstale Hreq Hhttp Hsize.
  rewrite (UpdateDatabase_download s fs _ Hstale Hreq Hhttp). simpl.
  rewrite Hscan by (rewrite ?Z.add_0_l; first [lia | exact Hsize]).
  rewrite ?app_nil_r. reflexivity.
Qed.

(** C5. With a database file younger than 14 days, [UpdateDatabase] returns
    success after looking at the file: no request is made and the file system
    is unchanged. With no database file, the check answers "not up to date"
    and the run goes on to the download: the request is made whenever it can
    be created from the URL, and the run fails on creating it otherwise. *)
Theorem C5_freshness_gate s fs :
  (forall f, fs !! dbPath = Some f -> Spec.fresh (now w) f ->
     UpdateDatabase common w s fs
     = (inr tt, fs, [EvStat dbPath; EvLog Info "GeoLite2 City database is up-to-date"]))
  /\ (fs !! dbPath = None ->
       isDatabaseUpToDate common w fs = (inr false, fs, [EvStat dbPath])
       /\ exists r fs' tr,
           UpdateDatabase common w s fs = (r, fs', (before_request common ++ tr)%list)
           /\ (NewRequest_ok downloadUrl = true -> exists tr', tr = EvHttpGet downloadUrl :: tr')
           /\ (NewRequest_ok downloadUrl = false -> r = inl ErrCreateRequest /\ tr = [])).
Proof.
  pose proof (UpdateDatabase_run s fs) as Hrun. split.
  - intros f Hf Hfresh.
    inversion Hrun; try reflexivity;
      match goal with H : stale _ _ _ |- _ =>
        unfold stale in H; rewrite Hf in H; contradiction end.
  - intros Hf. split; [rewrite isDatabaseUpToDate_run, Hf; reflexivity|].
    inversion Hrun as [f Hf'| | | | |]; [congruence|..];
      eexists _, _, _; (split; [reflexivity|]); split; intros Hreq;
      first [congruence | eauto].
Qed.

(** C10. [UpdateDatabase] does not read the updater flag: it runs the same
    for every service value. So for a configuration whose constructed service
    reports the updater disabled (the license key is then empty and the URL
    the default template), a call on a stale or missing database makes the
    download request, to the template formatted with the empty key, provided
    that URL is one a request can be created from. *)
Theorem C10_updater_flag_is_advisory fs :
  let s := fst (NewGeoLiteService common) in
  DisableUpdater s = true ->
  stale common w fs ->
  NewRequest_ok (Sprintf (MaxMindGeoLiteCityUrl common) "") = true ->
  MaxMindLicenseKey (EnvConfig common) = ""
  /\ (exists r fs' tr,
        UpdateDatabase common w s fs
        = (r, fs',
           [EvStat dbPath; EvLog Info "Updating GeoLite2 City database";
            EvHttpGet (Sprintf (MaxMindGeoLiteCityUrl common) "")] ++ tr)%list)
  /\ (forall s', UpdateDatabase common w s' fs = UpdateDatabase common w s fs).
Proof.
  intros s Hflag Hstale Hreq. unfold DisableUpdater in Hflag. subst s.
  rewrite NewGeoLiteService_disableUpdater in Hflag.
  apply andb_prop in Hflag as [Hkey Hurl].
  apply bool_decide_eq_true in Hkey. apply bool_decide_eq_true in Hurl.
  assert (Hdl : downloadUrl = Sprintf (MaxMindGeoLiteCityUrl common) "").
  { unfold download_url. rewrite Hkey, Hurl. reflexivity. }
  rewrite <- Hdl in *.
  split; [exact Hkey|]. split; [|reflexivity].
  pose proof (UpdateDatabase_run (fst (NewGeoLiteService common)) fs) as Hrun.
  inversion Hrun as [f Hf Hfresh| ? Hbad | | | |].
  - unfold stale in Hstale. rewrite Hf in Hstale. contradiction.
  - congruence.
  - eexists _, _, []. reflexivity.
  - eexists _, _, []. reflexivity.
  - eexists _, _, _. reflexivity.
  - eexists _, _, _. reflexivity.
Qed.

End Pipeline.

(** *** The theorems at concrete runs *)

Local Open Scope string_scope.

(** A download whose database does not decode, over an old installation. *)
Lemma corrupt_download_run :
  UpdateDatabase Sample.common (world body_corrupt) (mkService true []) fs_old
  = (inl (ErrExtract ErrOpenDownloaded), fs_old,
     [EvStat db_path; EvLog Info "Updating GeoLite2 City database";
      EvHttpGet "https://download.example/geoip_download?license_key=&suffix=tar.gz";
      EvCreateTemp "data/geolite.123.mmdb.tmp";
      EvWrite "data/geolite.123.mmdb.tmp" true;
      EvOpenDB "data/geolite.123.mmdb.tmp" false;
      EvRemove "data/geolite.123.mmdb.tmp"]).
Proof. vm_compute. reflexivity. Qed.

(** A good download over an old installation. *)
Lemma good_download_run :
  UpdateDatabase Sample.common (world body_ok) (mkService true []) fs_old
  = (inr tt, {[ db_path := mkFile [xab; x01; x02] (100 * day) ]},
     [EvStat db_path; EvLog Info "Updating GeoLite2 City database";
      EvHttpGet "https://download.example/geoip_download?license_key=&suffix=tar.gz";
      EvCreateTemp "data/geolite.123.mmdb.tmp";
      EvWrite "data/geolite.123.mmdb.tmp" true;
      EvOpenDB "data/geolite.123.mmdb.tmp" true;
      EvLock; EvRename "data/geolite.123.mmdb.tmp" db_path true; EvUnlock;
      EvLog Info "GeoLite2 City database successfully updated."]).
Proof. vm_compute. reflexivity. Qed.

Lemma C1_failure_leaves_database_witness :
  UpdateDatabase Sample.common (world body_corrupt) (mkService true []) fs_old
  = (inl (ErrExtract ErrOpenDownloaded), fs_old,
     [EvStat db_path; EvLog Info "Updating GeoLite2 City database";
      EvHttpGet "https://download.example/geoip_download?license_key=&suffix=tar.gz";
      EvCreateTemp "data/geolite.123.mmdb.tmp";
      EvWrite "data/geolite.123.mmdb.tmp" true;
      EvOpenDB "data/geolite.123.mmdb.tmp" false;
      EvRemove "data/geolite.123.mmdb.tmp"])
  /\ fs_old !! GeoLiteDBPath (EnvConfig Sample.common)
     = fs_old !! GeoLiteDBPath (EnvConfig Sample.common).
Proof.
  split; [exact corrupt_download_run|].
  exact (proj1 (C1_failure_leaves_database _ _ _ _ _ _ _ corrupt_download_run)).
Defined.

Lemma C2_promotion_requires_validation_witness :
  UpdateDatabase Sample.common (world body_ok) (mkService true []) fs_old
  = (inr tt, {[ db_path := mkFile [xab; x01; x02] (100 * day) ]},
     [EvStat db_path; EvLog Info "Updating GeoLite2 City database";
      EvHttpGet "https://download.example/geoip_download?license_key=&suffix=tar.gz";
      EvCreateTemp "data/geolite.123.mmdb.tmp";
      EvWrite "data/geolite.123.mmdb.tmp" true;
      EvOpenDB "data/geolite.123.mmdb.tmp" true;
      EvLock; EvRename "data/geolite.123.mmdb.tmp" db_path true; EvUnlock;
      EvLog Info "GeoLite2 City database successfully updated."])
  /\ is_Some (decoded {[ db_path := mkFile [xab; x01; x02] (100 * day) ]}
                      (GeoLiteDBPath (EnvConfig Sample.common))).
Proof.
  split; [exact good_download_run|].
  apply (proj2 (proj2 (C2_promotion_requires_validation _ _ _ _ _ _ _ good_download_run))
           "data/geolite.123.mmdb.tmp").
  apply list_elem_of_In. simpl. tauto.
Defined.

Lemma C4_size_limit_witness :
  Forall passed_over [readme]
  /\ stale Sample.common (world body_bomb) fs_old
  /\ UpdateDatabase Sample.common (world body_bomb) (mkService false []) fs_old
     = (inl (ErrExtract ErrSizeLimit), fs_old, before_response Sample.common).
Proof.
  assert (Hp : Forall passed_over [readme]).
  { repeat constructor. intros [_ Hb]. vm_compute in Hb. discriminate. }
  assert (Hs : stale Sample.common (world body_bomb) fs_old).
  { unfold stale, Spec.fresh. vm_compute. intros H. discriminate H. }
  split; [exact Hp|]. split; [exact Hs|].
  refine (proj2 (C4_size_limit Sample.common (world body_bomb) (mkService false [])
                   [readme]
                   (mkHeader TypeReg "GeoLite2-City_20240101/GeoLite2-City.mmdb"
                             (400 * 1024 * 1024))
                   [xab] true [] Hp _) fs_old Hs eq_refl eq_refl _).
  - split; reflexivity.
  - vm_compute. split; reflexivity.
Defined.

Lemma C5_freshness_gate_witness :
  fs_fresh !! db_path = Some (mkFile [xab] (99 * day))
  /\ Spec.fresh (now (world body_ok)) (mkFile [xab] (99 * day))
  /\ UpdateDatabase Sample.common (world body_ok) (mkService false []) fs_fresh
     = (inr tt, fs_fresh,
        [EvStat db_path; EvLog Info "GeoLite2 City database is up-to-date"]).
Proof.
  assert (Hf : Spec.fresh (now (world body_ok)) (mkFile [xab] (99 * day)))
    by (vm_compute; reflexivity).
  split; [reflexivity|]. split; [exact Hf|].
  exact (proj1 (C5_freshness_gate Sample.common (world body_ok) (mkService false [])
                  fs_fresh) _ eq_refl Hf).
Defined.

Lemma C10_updater_flag_is_advisory_witness :
  DisableUpdater (fst (NewGeoLiteService Sample.common)) = true
  /\ stale Sample.common (world body_ok) ∅
  /\ MaxMindLicenseKey (EnvConfig Sample.common) = "".
Proof.
  assert (Hs : stale Sample.common (world body_ok) ∅) by exact I.
  split; [reflexivity|]. split; [exact Hs|].
  exact (proj1 (C10_updater_flag_is_advisory Sample.common (world body_ok) ∅
                  eq_refl Hs eq_refl)).
Defined.

(* ===================================================================== *)
(** ** Further properties of the lookup gateway                           *)
(* ===================================================================== *)

Section LookupProperties.

Context {RT : Runtime} {RL : RuntimeLaws RT}.
Variable common : Common.

Local Open Scope string_scope.

Local Abbreviation dbPath := (GeoLiteDBPath (EnvConfig common)).

(** X1. A lookup never changes the file system, and its events are either
    none or exactly: read lock, one open of the database file, read unlock.
    The read lock is released on every path, the error paths included, and
    a lookup never takes the write lock, writes a file or makes a request. *)
Theorem X1_lookup_reads_only s ipAddress fs :
  exists r tr,
    GetLocationByIP common s ipAddress fs = (r, fs, tr)
    /\ (tr = [] \/ exists ok, tr = [EvRLock; EvOpenDB dbPath ok; EvRUnlock]).
Proof.
  unfold GetLocationByIP. case_decide; [eexists _, _; split; [reflexivity | auto]|].
  destruct (ParseIP ipAddress ≫= rangeLabel s) as [label|];
    [eexists _, _; split; [reflexivity | auto]|].
  destruct (ParseAddr ipAddress) as [addr|];
    [|eexists _, _; split; [reflexivity | auto]].
  destruct (lookupDatabase_run common addr fs) as (r & ok & Hrun).
  exists r, [EvRLock; EvOpenDB dbPath ok; EvRUnlock]. split; [|eauto].
  unfold mbind, M_bind, emit, deferred. rewrite Hrun. reflexivity.
Qed.

(** X2. A non-empty string that is not an IP address is answered with the
    parse error; the lock is not taken and the database is not opened. *)
Theorem X2_unparseable_address s ipAddress fs :
  ipAddress <> "" -> ParseAddr ipAddress = None ->
  GetLocationByIP common s ipAddress fs = (inl ErrParseAddr, fs, []).
Proof.
  intros Hne Hp. unfold GetLocationByIP. rewrite decide_False by exact Hne.
  destruct (ParseIP ipAddress) as [ip|] eqn:Hip.
  - destruct (ParseIP_ParseAddr _ _ Hip) as [addr Haddr]. congruence.
  - simpl. rewrite Hp. reflexivity.
Qed.

(** For an address that reaches the database, the answer is decided by
    the file at the database path at that moment: no file, or a file the
    decoder rejects, gives the open error; a record that does not decode
    gives the decode error; otherwise the English names of country and city,
    empty where the record has none. The read lock is released in all three
    cases. *)
Lemma GetLocationByIP_database s ipAddress addr fs :
  ipAddress <> "" ->
  ParseIP ipAddress ≫= rangeLabel s = None ->
  ParseAddr ipAddress = Some addr ->
  GetLocationByIP common s ipAddress fs
  = match decoded fs dbPath with
    | None => (inl ErrOpenDB, fs, [EvRLock; EvOpenDB dbPath false; EvRUnlock])
    | Some db =>
        (match mmdb_Lookup db addr with
         | None => inl ErrDecode
         | Some record =>
             inr (default "" (Country_Names record !! "en"),
                  default "" (City_Names record !! "en"))
         end, fs, [EvRLock; EvOpenDB dbPath true; EvRUnlock])
    end.
Proof.
  intros Hne Hl Hp. unfold GetLocationByIP. rewrite decide_False by exact Hne.
  rewrite Hl, Hp. unfold lookupDatabase, Open, deferred, emit, mbind, M_bind, mret, M_ret, fail.
  destruct (decoded fs dbPath) as [db|]; [|reflexivity].
  destruct (mmdb_Lookup db addr); reflexivity.
Qed.

(** X3. For an address that reaches the database, the answer is decided by
    the file at the database path at that moment: no file, or a file the
    decoder rejects, gives the open error; a record that does not decode
    gives the decode error; otherwise the English names of country and city,
    empty where the record has none. The read lock is released in all three
    cases. *)
Theorem X3_database_answer s ipAddress addr fs :
  ipAddress <> "" ->
  ParseIP ipAddress ≫= rangeLabel s = None ->
  ParseAddr ipAddress = Some addr ->
  GetLocationByIP common s ipAddress fs
  = match decoded fs dbPath with
    | None => (inl ErrOpenDB, fs, [EvRLock; EvOpenDB dbPath false; EvRUnlock])
    | Some db =>
        (match mmdb_Lookup db addr with
         | None => inl ErrDecode
         | Some record =>
             inr (default "" (Country_Names record !! "en"),
                  default "" (City_Names record !! "en"))
         end, fs, [EvRLock; EvOpenDB dbPath true; EvRUnlock])
    end.
Proof.
  intros Hne Hl Hp. unfold GetLocationByIP. rewrite decide_False by exact Hne.
  rewrite Hl, Hp. unfold lookupDatabase, Open, deferred, emit, mbind, M_bind, mret, M_ret, fail.
  destruct (decoded fs dbPath) as [db|]; [|reflexivity].
  destruct (mmdb_Lookup db addr); reflexivity.
Qed.

Lemma To4_IPv4_octets a b c d : To4 (IPv4 a b c d) = Some [a; b; c; d].
Proof. reflexivity. Qed.

Ltac octet_arith a b c d :=
  unfold Spec.in_block4, Spec.addr4; rewrite To4_IPv4_octets;
  pose proof (byte_bound a); pose proof (byte_bound b);
  pose proof (byte_bound c); pose proof (byte_bound d);
  change (32 - 8)%N with 24%N; change (32 - 10)%N with 22%N;
  change (32 - 12)%N with 20%N; change (32 - 16)%N with 16%N;
  change (2 ^ 24)%N with 16777216%N; change (2 ^ 22)%N with 4194304%N;
  change (2 ^ 20)%N with 1048576%N; change (2 ^ 16)%N with 65536%N;
  change (2 ^ 8)%N with 256%N;
  apply eq_iff_eq_true;
  rewrite ?andb_true_iff, ?N.eqb_eq, ?N.leb_le;
  zify; Z.div_mod_to_equations; lia.

Lemma block_10_octets a b c d :
  Spec.in_block4 (Spec.addr4 10 0 0 0) 8 (IPv4 a b c d) = (Byte.to_N a =? 10)%N.
Proof. octet_arith a b c d. Qed.

Lemma block_127_octets a b c d :
  Spec.in_block4 (Spec.addr4 127 0 0 0) 8 (IPv4 a b c d) = (Byte.to_N a =? 127)%N.
Proof. octet_arith a b c d. Qed.

Lemma block_172_octets a b c d :
  Spec.in_block4 (Spec.addr4 172 16 0 0) 12 (IPv4 a b c d)
  = ((Byte.to_N a =? 172) && (16 <=? Byte.to_N b) && (Byte.to_N b <=? 31))%N.
Proof. octet_arith a b c d. Qed.

Lemma block_192_octets a b c d :
  Spec.in_block4 (Spec.addr4 192 168 0 0) 16 (IPv4 a b c d)
  = ((Byte.to_N a =? 192) && (Byte.to_N b =? 168))%N.
Proof. octet_arith a b c d. Qed.

Lemma block_100_octets a b c d :
  Spec.in_block4 (Spec.addr4 100 64 0 0) 10 (IPv4 a b c d)
  = ((Byte.to_N a =? 100) && (64 <=? Byte.to_N b) && (Byte.to_N b <=? 127))%N.
Proof. octet_arith a b c d. Qed.

(** X4. The label of an IPv4 address a.b.c.d, read off its first two octets,
    whatever local IPv6 ranges are configured: Tailscale for 100.64 to
    100.127, LAN for 10, 172.16 to 172.31 and 192.168, localhost for 127, and
    no label for every other address. *)
Theorem X4_ipv4_labels_by_octets s (a b c d : byte) :
  rangeLabel s (IPv4 a b c d)
  = let a := Byte.to_N a in
    let b := Byte.to_N b in
    if ((a =? 100) && (64 <=? b) && (b <=? 127))%N
    then Some ("Internal Network", "Tailscale")
    else if ((a =? 10) || ((a =? 172) && (16 <=? b) && (b <=? 31))
             || ((a =? 192) && (b =? 168)))%N
    then Some ("Internal Network", "LAN")
    else if (a =? 127)%N then Some ("Internal Network", "localhost")
    else None.
Proof.
  rewrite rangeLabel_spec.
  unfold Spec.classify, Spec.in_cgnat, Spec.in_private, Spec.in_loopback.
  change (Spec.is_ipv6 (IPv4 a b c d)) with false.
  rewrite block_10_octets, block_127_octets, block_172_octets, block_192_octets,
    block_100_octets.
  rewrite (bool_decide_eq_false_2 (IPv4 a b c d = IPv6loopback)) by discriminate.
  rewrite orb_false_r. reflexivity.
Qed.

(** X5. An IPv6 address (one without a 4-byte form) gets the LAN label when
    a configured local range contains it, the localhost label when it is ::1,
    and no label otherwise: without configuration no IPv6 address but ::1 is
    taken for an internal one. *)
Theorem X5_ipv6_labels s ip :
  To4 ip = None ->
  rangeLabel s ip
  = if existsb (fun localRange => Contains localRange ip) (localIPv6Ranges s)
    then Some ("Internal Network", "LAN")
    else if bool_decide (ip = IPv6loopback)
    then Some ("Internal Network", "localhost")
    else None.
Proof.
  intros H4. rewrite rangeLabel_spec.
  unfold Spec.classify, Spec.in_cgnat, Spec.in_private, Spec.in_loopback,
    Spec.is_ipv6, Spec.in_block4, Spec.in_local_range.
  rewrite H4, bool_decide_eq_true_2 by reflexivity. reflexivity.
Qed.

End LookupProperties.

Lemma X2_unparseable_address_witness :
  "not-an-ip" <> ""%string
  /\ ParseAddr "not-an-ip" = None
  /\ GetLocationByIP Sample.common (mkService false []) "not-an-ip" fs_old
     = (inl ErrParseAddr, fs_old, []).
Proof.
  split; [discriminate|]. split; [reflexivity|].
  exact (X2_unparseable_address Sample.common (mkService false []) "not-an-ip" fs_old
           ltac:(discriminate) eq_refl).
Defined.

Lemma X3_database_answer_witness :
  ParseAddr "8.8.8.8" = Some (IPv4 x08 x08 x08 x08)
  /\ GetLocationByIP Sample.common (mkService false []) "8.8.8.8" fs_old
     = (inr ("Switzerland", "Zurich"), fs_old,
        [EvRLock; EvOpenDB db_path true; EvRUnlock])%string.
Proof.
  split; [reflexivity|].
  exact (X3_database_answer Sample.common (mkService false []) "8.8.8.8" _ fs_old
           ltac:(discriminate) eq_refl eq_refl).
Defined.

Lemma X5_ipv6_labels_witness :
  To4 [xfe; x80; x00; x00; x00; x00; x00; x00;
       x00; x00; x00; x00; x00; x00; x00; x01] = None
  /\ rangeLabel (fst (NewGeoLiteService Sample.common))
       [xfe; x80; x00; x00; x00; x00; x00; x00;
        x00; x00; x00; x00; x00; x00; x00; x01] = None.
Proof.
  split; [reflexivity|].
  exact (X5_ipv6_labels (fst (NewGeoLiteService Sample.common))
           [xfe; x80; x00; x00; x00; x00; x00; x00;
            x00; x00; x00; x00; x00; x00; x00; x01] eq_refl).
Defined.

(* ===================================================================== *)
(** ** Further properties of the construction                             *)
(* ===================================================================== *)

Section ConstructionProperties.

Context {RT : Runtime} {RL : RuntimeLaws RT}.
Variable common : Common.

Local Open Scope string_scope.

(** When every entry parses as an IPv6 network, the loop collects the
    networks in the order of the entries. *)
Lemma parse_ranges_good ranges localRanges :
  (forall entry, entry ∈ (TrimSpace <$> ranges) -> entry <> "" ->
     exists ip ipNet, ParseCIDR entry = Some (ip, ipNet) /\ To4 (net_IP ipNet) = None) ->
  parse_ranges ranges localRanges
  = inr (localRanges
         ++ omap (fun entry => snd <$> ParseCIDR entry)
              (filter (fun entry => entry <> "") (TrimSpace <$> ranges)))%list.
Proof.
  revert localRanges. induction ranges as [|r ranges IH]; intros localRanges Hgood.
  - simpl. rewrite app_nil_r. reflexivity.
  - rewrite fmap_cons. simpl parse_ranges. case_decide as He.
    + rewrite filter_cons_False by (intros H; apply H, He).
      apply IH. intros entry Hin. apply Hgood. apply elem_of_cons. auto.
    + rewrite filter_cons_True by exact He.
      destruct (Hgood (TrimSpace r)) as (ip & ipNet & Hc & H4);
        [apply elem_of_cons; auto | exact He |].
      rewrite Hc, H4. simpl omap. rewrite Hc. simpl.
      rewrite IH by (intros entry Hin; apply Hgood; apply elem_of_cons; auto).
      rewrite <- app_assoc. reflexivity.
Qed.

(** X6. When every entry of the local-ranges setting parses as an IPv6
    network, the constructed service holds exactly the networks of the
    non-blank entries, in the order they are written, and the warning about
    the ranges is not logged. The empty setting gives the empty set. *)
Theorem X6_valid_ranges_in_order :
  (forall entry, range_entry (LocalIPv6Ranges (EnvConfig common)) entry ->
     exists ip ipNet, ParseCIDR entry = Some (ip, ipNet) /\ To4 (net_IP ipNet) = None) ->
  localIPv6Ranges (fst (NewGeoLiteService common))
  = omap (fun entry => snd <$> ParseCIDR entry)
      (filter (fun entry => entry <> "")
         (TrimSpace <$> Split (LocalIPv6Ranges (EnvConfig common)) ","%char))
  /\ EvLog Warn "Failed to initialize IPv6 local ranges" ∉ snd (NewGeoLiteService common).
Proof.
  intros Hgood. unfold NewGeoLiteService.
  set (s0 := if _ && _ then _ else _).
  assert (Hs0 : localIPv6Ranges (fst s0) = []
                /\ EvLog Warn "Failed to initialize IPv6 local ranges" ∉ snd s0).
  { subst s0. destruct (_ && _); simpl; split; auto.
    - intros H. apply elem_of_cons in H as [H|H]; [discriminate H|].
      apply elem_of_nil in H as [].
    - intros H. apply elem_of_nil in H as []. }
  destruct s0 as [service log1]. simpl in Hs0. destruct Hs0 as [Hr Hlog].
  unfold initializeIPv6LocalRanges. case_decide as He.
  - rewrite He. simpl. rewrite TrimSpace_empty.
    rewrite filter_cons_False by (intros H; apply H; reflexivity).
    split; [exact Hr|]. rewrite app_nil_r. exact Hlog.
  - rewrite parse_ranges_good
      by (intros entry Hin Hne; apply Hgood; split; assumption).
    simpl. split; [reflexivity|].
    intros H. apply elem_of_app in H as [H|H]; [exact (Hlog H)|].
    destruct (0 <? _)%nat.
    + apply elem_of_cons in H as [H|H]; [discriminate H|]. apply elem_of_nil in H as [].
    + apply elem_of_nil in H as [].
Qed.

(** X7. A license key, or a database URL other than the default template,
    keeps the updater enabled, whatever the local ranges are and whether or
    not they parse. *)
Theorem X7_updater_enabled :
  MaxMindLicenseKey (EnvConfig common) <> ""
  \/ GeoLiteDBUrl (EnvConfig common) <> MaxMindGeoLiteCityUrl common ->
  DisableUpdater (fst (NewGeoLiteService common)) = false.
Proof.
  intros H. unfold DisableUpdater. rewrite NewGeoLiteService_disableUpdater.
  apply andb_false_iff.
  destruct H as [H|H]; [left | right]; apply bool_decide_eq_false; exact H.
Qed.

End ConstructionProperties.

Lemma X6_valid_ranges_in_order_witness :
  (forall entry, range_entry (LocalIPv6Ranges (EnvConfig common_two_ranges)) entry ->
     exists ip ipNet, ParseCIDR entry = Some (ip, ipNet) /\ To4 (net_IP ipNet) = None)
  /\ localIPv6Ranges (fst (NewGeoLiteService common_two_ranges))
     = [ mkIPNet [xfd; x00; x00; x00; x00; x00; x00; x00;
                  x00; x00; x00; x00; x00; x00; x00; x00] (CIDRMask 8 128);
         mkIPNet [xfe; x80; x00; x00; x00; x00; x00; x00;
                  x00; x00; x00; x00; x00; x00; x00; x00] (CIDRMask 10 128) ].
Proof.
  assert (Hgood : forall entry,
             range_entry (LocalIPv6Ranges (EnvConfig common_two_ranges)) entry ->
             exists ip ipNet, ParseCIDR entry = Some (ip, ipNet)
                              /\ To4 (net_IP ipNet) = None).
  { intros entry [Hin Hne]. vm_compute in Hin.
    apply elem_of_cons in Hin as [->|Hin]; [eexists _, _; split; reflexivity|].
    apply elem_of_cons in Hin as [->|Hin]; [contradiction|].
    apply elem_of_cons in Hin as [->|Hin]; [eexists _, _; split; reflexivity|].
    apply elem_of_nil in Hin as []. }
  split; [exact Hgood|].
  exact (proj1 (X6_valid_ranges_in_order common_two_ranges Hgood)).
Defined.

Lemma X7_updater_enabled_witness :
  GeoLiteDBUrl (EnvConfig common_mirror) <> MaxMindGeoLiteCityUrl common_mirror
  /\ DisableUpdater (fst (NewGeoLiteService common_mirror)) = false.
Proof.
  assert (H : GeoLiteDBUrl (EnvConfig common_mirror) <> MaxMindGeoLiteCityUrl common_mirror)
    by discriminate.
  split; [exact H|].
  exact (X7_updater_enabled common_mirror (or_intror H)).
Defined.

(* ===================================================================== *)
(** ** Further properties of the update pipeline                          *)
(* ===================================================================== *)

Section PipelineProperties.

Context {RT : Runtime} {RL : RuntimeLaws RT}.
Variable common : Common.
Variable w : World.

Local Open Scope string_scope.

Local Abbreviation dbPath := (GeoLiteDBPath (EnvConfig common)).
Local Abbreviation downloadUrl := (download_url common).

Ltac members H :=
  repeat first
    [ apply elem_of_app in H as [H|H]
    | apply elem_of_cons in H as [H|H]
    | apply elem_of_nil in H as [] ];
  try discriminate H.

(** A successful [installEntry] had everything go right. *)
Lemma installEntry_success data stream_ok fs fs' tr :
  installEntry common w data stream_ok fs = (inr tt, fs', tr) ->
  stream_ok = true /\ disk_write_ok w = true /\ rename_ok w = true
  /\ is_Some (mmdb_Open data)
  /\ fs' = <[dbPath := mkFile data (now w)]> fs.
Proof.
  unfold installEntry, CreateTemp, Copy, Remove, Rename, Open, decoded.
  unfold mbind, M_bind, mret, M_ret, fail, emit, try, wrapped. simpl.
  destruct (temp_name w _ _) as [t|]; [|discriminate].
  destruct (fs !! t) eqn:Ht; [discriminate|].
  rewrite insert_insert_eq.
  destruct stream_ok, (disk_write_ok w); simpl; try discriminate.
  rewrite lookup_insert_eq. simpl.
  destruct (mmdb_Open data) as [db|] eqn:Hdb; simpl; [|discriminate].
  destruct (rename_ok w); simpl; rewrite lookup_insert_eq; simpl; [|discriminate].
  rewrite delete_insert_eq, (delete_id fs t) by exact Ht.
  intros [= <- _]. eauto 10.
Qed.

(** A successful scan found a matching entry, passed over everything before
    it, and installed its bytes. *)
Lemma extractEntries_success items totalSize fs fs' tr :
  extractEntries common w items totalSize fs = (inr tt, fs', tr) ->
  exists passed hdr data rest,
    items = (passed ++ TarEntry hdr data true :: rest)%list
    /\ Forall passed_over passed /\ matching hdr
    /\ is_Some (mmdb_Open data)
    /\ fs' = <[dbPath := mkFile data (now w)]> fs.
Proof.
  induction items as [|[|hdr data stream_ok] items IH]; simpl; try discriminate.
  destruct (bool_decide (Typeflag hdr = TypeReg)
            && bool_decide (Base (Name hdr) = "GeoLite2-City.mmdb")) eqn:Hm.
  - destruct (_ <? _)%Z; [discriminate|]. intros Hinst.
    apply installEntry_success in Hinst as (-> & _ & _ & Hok & ->).
    apply andb_prop in Hm as [Ht Hb].
    apply bool_decide_eq_true in Ht. apply bool_decide_eq_true in Hb.
    exists [], hdr, data, items.
    split; [reflexivity|]. split; [constructor|]. split; [split; assumption|].
    split; [exact Hok | reflexivity].
  - intros Hrun. destruct (IH Hrun) as (passed & hdr' & data' & rest & -> & Hp & Hmatch & Hok & ->).
    exists (TarEntry hdr data stream_ok :: passed), hdr', data', rest.
    split; [reflexivity|]. split; [|split; [exact Hmatch|split; [exact Hok | reflexivity]]].
    constructor; [|exact Hp].
    intros [Ht Hb]. rewrite !bool_decide_eq_true_2 in Hm by assumption. discriminate.
Qed.

(** What a successful update of a stale database has done. *)
Lemma UpdateDatabase_installed s fs fs' tr :
  stale common w fs ->
  UpdateDatabase common w s fs = (inr tt, fs', tr) ->
  exists passed hdr data rest,
    http_Do w downloadUrl
    = HttpResponse StatusOK (GzipTar (passed ++ TarEntry hdr data true :: rest))
    /\ Forall passed_over passed /\ matching hdr
    /\ is_Some (mmdb_Open data)
    /\ fs' = <[dbPath := mkFile data (now w)]> fs.
Proof.
  intros Hstale Hrun.
  pose proof (UpdateDatabase_run common w s fs) as Hcases. rewrite Hrun in Hcases.
  inversion Hcases as [f Hf Hfresh| | | | |body ? ? ? Hreq Hhttp Hex]; subst.
  - unfold stale in Hstale. rewrite Hf in Hstale. contradiction.
  - rewrite (UpdateDatabase_download common w s fs body Hstale Hreq Hhttp) in Hrun.
    destruct (extractDatabase common w s body fs) as [[[e|[]] fs1] tr1] eqn:Hext;
      [discriminate|].
    injection Hrun as -> _.
    destruct body as [|items]; [discriminate|]. simpl in Hext.
    apply extractEntries_success in Hext
      as (passed & hdr & data & rest & -> & Hp & Hm & Hok & ->).
    rewrite Hhttp. eauto 10.
Qed.

(** X8. When [UpdateDatabase] succeeds on a stale or missing database, the
    download answered 200 with a gzip tar archive, and the file now at the
    database path holds the bytes of the first matching entry of that
    archive, which the decoder accepts, with the time of the run as
    modification time. *)
Theorem X8_successful_update_installs_first_match s fs fs' tr :
  stale common w fs ->
  UpdateDatabase common w s fs = (inr tt, fs', tr) ->
  exists passed hdr data rest,
    http_Do w downloadUrl
    = HttpResponse StatusOK (GzipTar (passed ++ TarEntry hdr data true :: rest))
    /\ Forall passed_over passed /\ matching hdr
    /\ is_Some (mmdb_Open data)
    /\ fs' = <[dbPath := mkFile data (now w)]> fs.
Proof.
  intros Hstale Hrun.
  pose proof (UpdateDatabase_run common w s fs) as Hcases. rewrite Hrun in Hcases.
  inversion Hcases as [f Hf Hfresh| | | | |body ? ? ? Hreq Hhttp Hex]; subst.
  - unfold stale in Hstale. rewrite Hf in Hstale. contradiction.
  - rewrite (UpdateDatabase_download common w s fs body Hstale Hreq Hhttp) in Hrun.
    destruct (extractDatabase common w s body fs) as [[[e|[]] fs1] tr1] eqn:Hext;
      [discriminate|].
    injection Hrun as -> _.
    destruct body as [|items]; [discriminate|]. simpl in Hext.
    apply extractEntries_success in Hext
      as (passed & hdr & data & rest & -> & Hp & Hm & Hok & ->).
    rewrite Hhttp. eauto 10.
Qed.


(** A database younger than 14 days ends the call at once. *)
Lemma UpdateDatabase_fresh s fs f :
  fs !! dbPath = Some f -> Spec.fresh (now w) f ->
  UpdateDatabase common w s fs
  = (inr tt, fs, [EvStat dbPath; EvLog Info "GeoLite2 City database is up-to-date"]).
Proof.
  intros Hf Hfresh. pose proof (UpdateDatabase_run common w s fs) as Hrun.
  inversion Hrun; try reflexivity;
    match goal with H : stale _ _ _ |- _ =>
      unfold stale in H; rewrite Hf in H; contradiction end.
Qed.

(** The traces [UpdateDatabase] can leave, by the step at which it ends. *)
Lemma UpdateDatabase_traces s fs r fs' tr :
  UpdateDatabase common w s fs = (r, fs', tr) ->
  tr = [EvStat dbPath; EvLog Info "GeoLite2 City database is up-to-date"]
  \/ tr = before_request common
  \/ tr = before_response common
  \/ (exists t, tr = (before_response common
                      ++ [EvCreateTemp t; EvWrite t false; EvRemove t])%list)
  \/ (exists t, tr = (before_response common
                      ++ [EvCreateTemp t; EvWrite t true; EvOpenDB t false; EvRemove t])%list)
  \/ (exists t, tr = (before_response common
                      ++ [EvCreateTemp t; EvWrite t true; EvOpenDB t true]
                      ++ [EvLock; EvRename t dbPath false; EvUnlock]
                      ++ [EvRemove t])%list)
  \/ (exists t, tr = (before_response common
                      ++ [EvCreateTemp t; EvWrite t true; EvOpenDB t true]
                      ++ [EvLock; EvRename t dbPath true; EvUnlock]
                      ++ [EvLog Info "GeoLite2 City database successfully updated."])%list).
Proof.
  intros Hrun.
  pose proof (UpdateDatabase_run common w s fs) as Hcases. rewrite Hrun in Hcases.
  inversion Hcases as [| | | |? ? ? ? ? ? ? Hex|? ? ? ? ? ? Hex]; subst; auto.
  - inversion Hex as [|data r0 Hinst]; subst; [do 2 right; left; reflexivity|].
    inversion Hinst; subst.
    + do 2 right; left; reflexivity.
    + do 3 right; left. eexists; reflexivity.
    + do 4 right; left. eexists; reflexivity.
    + do 5 right; left. eexists; reflexivity.
  - apply extract_run_success in Hex as (t & data & _ & _ & _ & ->).
    do 6 right. eexists; reflexivity.
Qed.

(** X12. The write lock is held around the rename and nothing else: a run
    either has no lock event at all, or exactly the sequence lock, rename
    onto the database path, unlock. The download request, the staging and
    the validation come before the lock is taken, and the read lock is never
    used. *)
Theorem X12_lock_held_for_rename_only s fs r fs' tr :
  UpdateDatabase common w s fs = (r, fs', tr) ->
  Forall (fun ev => is_lock_event ev = false) tr
  \/ exists pre t ok post,
      tr = (pre ++ [EvLock; EvRename t dbPath ok; EvUnlock] ++ post)%list
      /\ Forall (fun ev => is_lock_event ev = false) pre
      /\ Forall (fun ev => is_lock_event ev = false) post
      /\ EvHttpGet downloadUrl ∈ pre
      /\ EvOpenDB t true ∈ pre
      /\ Forall (fun ev => is_request ev = false) post.
Proof.
  intros Hrun.
  destruct (UpdateDatabase_traces _ _ _ _ _ Hrun)
    as [->|[->|[->|[[t ->]|[[t ->]|[[t ->]|[t ->]]]]]]];
    try (left; repeat constructor; fail).
  - right. exists (before_response common
                   ++ [EvCreateTemp t; EvWrite t true; EvOpenDB t true])%list,
             t, false, [EvRemove t].
    split; [reflexivity|]. split; [repeat constructor|]. split; [repeat constructor|].
    split; [apply list_elem_of_In; simpl; auto|].
    split; [apply list_elem_of_In; simpl; auto 10|]. repeat constructor.
  - right. exists (before_response common
                   ++ [EvCreateTemp t; EvWrite t true; EvOpenDB t true])%list,
             t, true, [EvLog Info "GeoLite2 City database successfully updated."].
    split; [reflexivity|]. split; [repeat constructor|]. split; [repeat constructor|].
    split; [apply list_elem_of_In; simpl; auto|].
    split; [apply list_elem_of_In; simpl; auto 10|]. repeat constructor.
Qed.

(** X13. A call makes at most one request, never a second one after a
    failure, and the request goes to the configured URL template formatted
    with the license key. *)
Theorem X13_at_most_one_request s fs r fs' tr :
  UpdateDatabase common w s fs = (r, fs', tr) ->
  (length (List.filter is_request tr) <= 1)%nat
  /\ forall url, EvHttpGet url ∈ tr ->
       url = Sprintf (GeoLiteDBUrl (EnvConfig common)) (MaxMindLicenseKey (EnvConfig common)).
Proof.
  intros Hrun.
  destruct (UpdateDatabase_traces _ _ _ _ _ Hrun)
    as [->|[->|[->|[[t ->]|[[t ->]|[[t ->]|[t ->]]]]]]];
    (split; [simpl; lia|]); intros url H; members H;
    injection H as ->; reflexivity.
Qed.

(** X14. An archive that is read to its end without a regular file named
    [GeoLite2-City.mmdb] makes the update fail with the not-found error; no
    staging file is created and the file system stays as it is. *)
Theorem X14_database_not_in_archive s fs items :
  stale common w fs -> NewRequest_ok downloadUrl = true ->
  http_Do w downloadUrl = HttpResponse StatusOK (GzipTar items) ->
  Forall passed_over items ->
  UpdateDatabase common w s fs
  = (inl (ErrExtract ErrNotInArchive), fs, before_response common).
Proof.
  intros Hstale Hreq Hhttp Hpassed.
  rewrite (UpdateDatabase_download common w s fs _ Hstale Hreq Hhttp). simpl.
  rewrite <- (app_nil_r items), (extractEntries_pass common w items [] 0 fs Hpassed).
  simpl. rewrite ?app_nil_r. reflexivity.
Qed.

(** X15. The first matching entry decides the extraction: what follows it in
    the archive, be it further matching entries, oversized ones or a damaged
    tail, is never read. *)
Theorem X15_first_match_decides s passed hdr data stream_ok rest rest' fs :
  Forall passed_over passed -> matching hdr ->
  extractDatabase common w s (GzipTar (passed ++ TarEntry hdr data stream_ok :: rest)) fs
  = extractDatabase common w s (GzipTar (passed ++ TarEntry hdr data stream_ok :: rest')) fs.
Proof.
  intros Hpassed [Htype Hbase]. simpl.
  rewrite !extractEntries_pass by exact Hpassed. simpl.
  rewrite !bool_decide_eq_true_2 by assumption. reflexivity.
Qed.

(** X17. A transport error and a status other than 200 end the update with
    the download error, which carries the status; the body of such a
    response is not read, and the file system is not touched. *)
Theorem X17_download_failures s fs :
  stale common w fs -> NewRequest_ok downloadUrl = true ->
  (http_Do w downloadUrl = HttpError ->
     UpdateDatabase common w s fs = (inl ErrDownload, fs, before_response common))
  /\ (forall code body,
       http_Do w downloadUrl = HttpResponse code body -> code <> StatusOK ->
       UpdateDatabase common w s fs
       = (inl (ErrHTTPStatus code), fs, before_response common)).
Proof.
  intros Hstale Hreq.
  pose proof (UpdateDatabase_run common w s fs) as Hrun.
  split; [intros Hhttp | intros code body Hhttp Hcode];
    inversion Hrun as [f Hf Hfresh| | | | |];
    try (unfold stale in Hstale; rewrite Hf in Hstale; contradiction);
    try congruence.
Qed.

End PipelineProperties.

(* ===================================================================== *)
(** ** Updates and lookups together                                       *)
(* ===================================================================== *)

Section Composition.

Context {RT : Runtime} {RL : RuntimeLaws RT}.
Variable common : Common.

Local Open Scope string_scope.

Local Abbreviation dbPath := (GeoLiteDBPath (EnvConfig common)).

(** X10. After an update that installed a database, another update within
    the next 14 days, by any service value and whatever the download would
    answer, returns success after looking at the file: it makes no request
    and leaves the file system as it is. *)
Theorem X10_second_update_is_noop w w' s s' fs fs' tr :
  stale common w fs ->
  UpdateDatabase common w s fs = (inr tt, fs', tr) ->
  (now w' - now w < 14 * 24 * 3600 * 1000000000)%Z ->
  UpdateDatabase common w' s' fs'
  = (inr tt, fs', [EvStat dbPath; EvLog Info "GeoLite2 City database is up-to-date"]).
Proof.
  intros Hstale Hrun Hage.
  destruct (UpdateDatabase_installed common w s fs fs' tr Hstale Hrun)
    as (passed & hdr & data & rest & _ & _ & _ & _ & ->).
  apply (UpdateDatabase_fresh common w' s' _ (mkFile data (now w))).
  - apply lookup_insert_eq.
  - exact Hage.
Qed.

(** X11. After an update that installed a database, a lookup that reaches
    the database opens the new file successfully and answers from the bytes
    of the archive's first matching entry: the names of the record the
    decoder finds in them, or the decode error. *)
Theorem X11_lookup_after_update w s fs fs' tr s' ipAddress addr :
  stale common w fs ->
  UpdateDatabase common w s fs = (inr tt, fs', tr) ->
  ipAddress <> "" ->
  ParseIP ipAddress ≫= rangeLabel s' = None ->
  ParseAddr ipAddress = Some addr ->
  exists passed hdr data rest db,
    http_Do w (download_url common)
    = HttpResponse StatusOK (GzipTar (passed ++ TarEntry hdr data true :: rest))
    /\ Forall passed_over passed /\ matching hdr
    /\ mmdb_Open data = Some db
    /\ GetLocationByIP common s' ipAddress fs'
       = (match mmdb_Lookup db addr with
          | None => inl ErrDecode
          | Some record =>
              inr (default "" (Country_Names record !! "en"),
                   default "" (City_Names record !! "en"))
          end, fs', [EvRLock; EvOpenDB dbPath true; EvRUnlock]).
Proof.
  intros Hstale Hrun Hne Hl Hp.
  destruct (UpdateDatabase_installed common w s fs fs' tr Hstale Hrun)
    as (passed & hdr & data & rest & Hhttp & Hpassed & Hm & [db Hdb] & ->).
  exists passed, hdr, data, rest, db.
  split; [exact Hhttp|]. split; [exact Hpassed|]. split; [exact Hm|].
  split; [exact Hdb|].
  rewrite (GetLocationByIP_database common s' ipAddress addr _ Hne Hl Hp).
  unfold decoded. rewrite lookup_insert_eq. simpl. rewrite Hdb. reflexivity.
Qed.

End Composition.

Section ArchiveLayout.

Lemma list_ascii_of_string_app s1 s2 :
  list_ascii_of_string (s1 +:+ s2)
  = (list_ascii_of_string s1 ++ list_ascii_of_string s2)%list.
Proof. induction s1 as [|c s1 IH]; simpl; [reflexivity | rewrite IH; reflexivity]. Qed.

(** X16. A regular file named [GeoLite2-City.mmdb] is the entry the pipeline
    is after in whatever directory of the archive it lies, and whatever size
    its header states. *)
Theorem X16_entry_matches_in_any_directory dir size :
  matching (mkHeader TypeReg (dir +:+ "/GeoLite2-City.mmdb") size).
Proof.
  split; [reflexivity|]. simpl Name.
  unfold Base. destruct (decide _) as [E|_].
  - destruct dir; discriminate E.
  - rewrite list_ascii_of_string_app, rev_app_distr. reflexivity.
Qed.

End ArchiveLayout.

(** *** The further properties at concrete runs *)

Lemma fs_old_stale body : stale Sample.common (world body) fs_old.
Proof. unfold stale, Spec.fresh. vm_compute. intros H. discriminate H. Qed.

Lemma readme_passed_over : Forall passed_over [readme].
Proof. repeat constructor. intros [_ Hb]. vm_compute in Hb. discriminate. Qed.

Lemma X8_successful_update_installs_first_match_witness :
  stale Sample.common (world body_ok) fs_old
  /\ exists passed hdr data rest,
       http_Do (world body_ok) (download_url Sample.common)
       = HttpResponse StatusOK (GzipTar (passed ++ TarEntry hdr data true :: rest))
       /\ Forall passed_over passed /\ matching hdr
       /\ is_Some (mmdb_Open data)
       /\ ({[ db_path := mkFile [xab; x01; x02] (100 * day) ]} : gmap string File)
          = <[GeoLiteDBPath (EnvConfig Sample.common)
              := mkFile data (now (world body_ok))]> fs_old.
Proof.
  split; [apply fs_old_stale|].
  exact (X8_successful_update_installs_first_match Sample.common (world body_ok)
           (mkService true []) fs_old _ _ (fs_old_stale body_ok) good_download_run).
Defined.


Lemma X10_second_update_is_noop_witness :
  stale Sample.common (world body_ok) fs_old
  /\ (now (world body_corrupt) - now (world body_ok) < 14 * 24 * 3600 * 1000000000)%Z
  /\ UpdateDatabase Sample.common (world body_corrupt) (mkService false [])
       {[ db_path := mkFile [xab; x01; x02] (100 * day) ]}
     = (inr tt, {[ db_path := mkFile [xab; x01; x02] (100 * day) ]},
        [EvStat db_path; EvLog Info "GeoLite2 City database is up-to-date"]).
Proof.
  assert (Hage : (now (world body_corrupt) - now (world body_ok)
                  < 14 * 24 * 3600 * 1000000000)%Z) by (vm_compute; reflexivity).
  split; [apply fs_old_stale|]. split; [exact Hage|].
  exact (X10_second_update_is_noop Sample.common (world body_ok) (world body_corrupt)
           (mkService true []) (mkService false []) fs_old _ _
           (fs_old_stale body_ok) good_download_run Hage).
Defined.

Lemma X11_lookup_after_update_witness :
  stale Sample.common (world body_ok) fs_old
  /\ ParseAddr "8.8.8.8" = Some (IPv4 x08 x08 x08 x08)
  /\ exists passed hdr data rest db,
       http_Do (world body_ok) (download_url Sample.common)
       = HttpResponse StatusOK (GzipTar (passed ++ TarEntry hdr data true :: rest))
       /\ Forall passed_over passed /\ matching hdr
       /\ mmdb_Open data = Some db
       /\ GetLocationByIP Sample.common (mkService false []) "8.8.8.8"
            {[ db_path := mkFile [xab; x01; x02] (100 * day) ]}
          = (match mmdb_Lookup db (IPv4 x08 x08 x08 x08) with
             | None => inl ErrDecode
             | Some record =>
                 inr (default "" (Country_Names record !! "en"),
                      default "" (City_Names record !! "en"))
             end, {[ db_path := mkFile [xab; x01; x02] (100 * day) ]},
             [EvRLock; EvOpenDB (GeoLiteDBPath (EnvConfig Sample.common)) true; EvRUnlock]).
Proof.
  split; [apply fs_old_stale|]. split; [reflexivity|].
  exact (X11_lookup_after_update Sample.common (world body_ok) (mkService true [])
           fs_old _ _ (mkService false []) "8.8.8.8" (IPv4 x08 x08 x08 x08)
           (fs_old_stale body_ok) good_download_run ltac:(discriminate) eq_refl eq_refl).
Defined.

Lemma X12_lock_held_for_rename_only_witness :
  exists pre t ok post,
    [EvStat db_path; EvLog Info "Updating GeoLite2 City database";
     EvHttpGet "https://download.example/geoip_download?license_key=&suffix=tar.gz";
     EvCreateTemp "data/geolite.123.mmdb.tmp";
     EvWrite "data/geolite.123.mmdb.tmp" true;
     EvOpenDB "data/geolite.123.mmdb.tmp" true;
     EvLock; EvRename "data/geolite.123.mmdb.tmp" db_path true; EvUnlock;
     EvLog Info "GeoLite2 City database successfully updated."]
    = (pre ++ [EvLock; EvRename t (GeoLiteDBPath (EnvConfig Sample.common)) ok; EvUnlock]
       ++ post)%list
    /\ Forall (fun ev => is_lock_event ev = false) pre
    /\ Forall (fun ev => is_lock_event ev = false) post.
Proof.
  destruct (X12_lock_held_for_rename_only Sample.common (world body_ok)
              (mkService true []) fs_old _ _ _ good_download_run)
    as [Hnone|(pre & t & ok & post & Heq & Hpre & Hpost & _)].
  - exfalso. apply Forall_forall with (x := EvLock) in Hnone; [discriminate Hnone|].
    apply list_elem_of_In. simpl. tauto.
  - exists pre, t, ok, post. auto.
Defined.

Lemma X13_at_most_one_request_witness :
  (length (List.filter is_request
     [EvStat db_path; EvLog Info "Updating GeoLite2 City database";
      EvHttpGet "https://download.example/geoip_download?license_key=&suffix=tar.gz";
      EvCreateTemp "data/geolite.123.mmdb.tmp";
      EvWrite "data/geolite.123.mmdb.tmp" true;
      EvOpenDB "data/geolite.123.mmdb.tmp" false;
      EvRemove "data/geolite.123.mmdb.tmp"]) <= 1)%nat.
Proof.
  exact (proj1 (X13_at_most_one_request Sample.common (world body_corrupt)
                  (mkService true []) fs_old _ _ _ corrupt_download_run)).
Defined.

Lemma X14_database_not_in_archive_witness :
  stale Sample.common (world body_other) fs_old
  /\ Forall passed_over [readme]
  /\ UpdateDatabase Sample.common (world body_other) (mkService false []) fs_old
     = (inl (ErrExtract ErrNotInArchive), fs_old, before_response Sample.common).
Proof.
  split; [apply fs_old_stale|]. split; [exact readme_passed_over|].
  exact (X14_database_not_in_archive Sample.common (world body_other)
           (mkService false []) fs_old [readme]
           (fs_old_stale body_other) eq_refl eq_refl readme_passed_over).
Defined.

Lemma X15_first_match_decides_witness :
  Forall passed_over [readme]
  /\ matching (mkHeader TypeReg "GeoLite2-City_20240101/GeoLite2-City.mmdb" 3)
  /\ extractDatabase Sample.common (world body_tail) (mkService false []) body_tail fs_old
     = extractDatabase Sample.common (world body_tail) (mkService false []) body_ok fs_old.
Proof.
  assert (Hm : matching (mkHeader TypeReg "GeoLite2-City_20240101/GeoLite2-City.mmdb" 3))
    by (split; reflexivity).
  split; [exact readme_passed_over|]. split; [exact Hm|].
  exact (X15_first_match_decides Sample.common (world body_tail) (mkService false [])
           [readme] _ [xab; x01; x02] true
           [database_entry (400 * 1024 * 1024) [xab]; TarError] [] fs_old
           readme_passed_over Hm).
Defined.

Lemma X17_download_failures_witness :
  stale Sample.common world_unavailable fs_old
  /\ UpdateDatabase Sample.common world_unavailable (mkService false []) fs_old
     = (inl (ErrHTTPStatus 503), fs_old, before_response Sample.common).
Proof.
  assert (Hs : stale Sample.common world_unavailable fs_old).
  { unfold stale, Spec.fresh. vm_compute. intros H. discriminate H. }
  split; [exact Hs|].
  exact (proj2 (X17_download_failures Sample.common world_unavailable
                  (mkService false []) fs_old Hs eq_refl)
               503%Z NotGzip eq_refl ltac:(discriminate)).
Defined.

(* ===================================================================== *)
(** ** Archives at the limit and damaged archives                         *)
(* ===================================================================== *)

Section Archives.

Context {RT : Runtime}.
Variable common : Common.
Variable w : World.

(** X18. The size limit is inclusive: a first matching entry whose header
    states a size of at most 300 MiB, 300 MiB itself included, is never
    refused for its size; the extraction is then the staging, validation and
    installation of that entry. *)
Theorem X18_size_within_limit_is_staged s passed hdr data stream_ok rest fs :
  Forall passed_over passed -> matching hdr ->
  (0 <= Size hdr <= maxTotalSize)%Z ->
  extractDatabase common w s (GzipTar (passed ++ TarEntry hdr data stream_ok :: rest)) fs
  = installEntry common w data stream_ok fs.
Proof.
  intros Hpassed Hm Hsize. simpl.
  apply extractEntries_first_match; try assumption; lia.
Qed.

(** X19. A body that is not gzip, and a tar stream that breaks before a
    matching entry is reached, end the update with the extraction error that
    names the cause; nothing is staged and the file system stays as it is. *)
Theorem X19_damaged_archive s fs :
  stale common w fs -> NewRequest_ok (download_url common) = true ->
  (http_Do w (download_url common) = HttpResponse StatusOK NotGzip ->
     UpdateDatabase common w s fs
     = (inl (ErrExtract ErrGzipReader), fs, before_response common))
  /\ (forall passed rest,
       http_Do w (download_url common)
       = HttpResponse StatusOK (GzipTar (passed ++ TarError :: rest)) ->
       Forall passed_over passed ->
       UpdateDatabase common w s fs
       = (inl (ErrExtract ErrTarRead), fs, before_response common)).
Proof.
  intros Hstale Hreq. split.
  - intros Hhttp. rewrite (UpdateDatabase_download common w s fs _ Hstale Hreq Hhttp).
    reflexivity.
  - intros passed rest Hhttp Hpassed.
    rewrite (UpdateDatabase_download common w s fs _ Hstale Hreq Hhttp). simpl.
    rewrite (extractEntries_pass common w passed _ 0 fs Hpassed). reflexivity.
Qed.

End Archives.

Lemma X18_size_within_limit_is_staged_witness :
  Forall passed_over [readme]
  /\ matching (mkHeader TypeReg "GeoLite2-City_20240101/GeoLite2-City.mmdb"
                        (300 * 1024 * 1024))
  /\ (0 <= 300 * 1024 * 1024 <= maxTotalSize)%Z
  /\ extractDatabase Sample.common (world body_ok) (mkService false [])
       (GzipTar [readme; database_entry (300 * 1024 * 1024) [xab]]) fs_old
     = installEntry Sample.common (world body_ok) [xab] true fs_old.
Proof.
  assert (Hm : matching (mkHeader TypeReg "GeoLite2-City_20240101/GeoLite2-City.mmdb"
                                  (300 * 1024 * 1024))) by (split; reflexivity).
  assert (Hsize : (0 <= 300 * 1024 * 1024 <= maxTotalSize)%Z)
    by (unfold maxTotalSize; lia).
  split; [exact readme_passed_over|]. split; [exact Hm|]. split; [exact Hsize|].
  exact (X18_size_within_limit_is_staged Sample.common (world body_ok)
           (mkService false []) [readme] _ [xab] true [] fs_old
           readme_passed_over Hm Hsize).
Defined.

Lemma X19_damaged_archive_witness :
  stale Sample.common (world NotGzip) fs_old
  /\ UpdateDatabase Sample.common (world NotGzip) (mkService false []) fs_old
     = (inl (ErrExtract ErrGzipReader), fs_old, before_response Sample.common).
Proof.
  split; [apply fs_old_stale|].
  exact (proj1 (X19_damaged_archive Sample.common (world NotGzip)
                  (mkService false []) fs_old (fs_old_stale NotGzip) eq_refl)
               eq_refl).
Defined.
